(** * Bias detection of [alibi_detect_config.py], shallow embedding

    The module [src/ml-components/bias-detection/alibi_detect_config.py]
    defines [MLModelBiasDetector].  This file embeds its constructor,
    [detect_bias] and the helper methods it calls.

    Modelling choices:
    - numbers (NumPy floats) are exact rationals [Q]; [np.mean] is the sum
      divided by the length;
    - categorical group values are strings; a [pd.DataFrame] is its row
      count together with its named columns;
    - a Python exception is a value of [exn]; a computation that may raise
      and that writes to [logger] is a value of the writer/error monad [M];
    - the wall-clock reading [pd.Timestamp.now().isoformat()] is an
      explicit argument [now] of [detect_bias]. *)

From Stdlib Require Import String List Bool Arith ZArith Lia QArith Qminmax Qabs Lqa.
Import ListNotations.

Open Scope Q_scope.

(** ** Exceptions, logging and the monad *)

Inductive BiasMetric :=
| DEMOGRAPHIC_PARITY
| EQUALIZED_ODDS
| EQUAL_OPPORTUNITY
| CALIBRATION
| COUNTERFACTUAL_FAIRNESS.

(** [BiasMetric(...).value] *)
Definition metric_value (m : BiasMetric) : string :=
  match m with
  | DEMOGRAPHIC_PARITY => "demographic_parity"
  | EQUALIZED_ODDS => "equalized_odds"
  | EQUAL_OPPORTUNITY => "equal_opportunity"
  | CALIBRATION => "calibration"
  | COUNTERFACTUAL_FAIRNESS => "counterfactual_fairness"
  end.

(** [list(BiasMetric)]: the members in declaration order. *)
Definition all_BiasMetric : list BiasMetric :=
  [DEMOGRAPHIC_PARITY; EQUALIZED_ODDS; EQUAL_OPPORTUNITY; CALIBRATION;
   COUNTERFACTUAL_FAIRNESS].

(** The exceptions the embedded code can raise: [ValueError(msg)], the
    [KeyError] of a missing DataFrame column and the [IndexError] NumPy
    raises when a boolean mask does not have the length of the array. *)
Inductive exn :=
| ValueError (msg : string)
| KeyError (key : string)
| IndexError (array_len mask_len : nat).

Inductive log_level := INFO | WARNING | ERROR.

(** One entry per [logger] call of the module, with its arguments. *)
Inductive log_entry :=
| LogInitialized (model_name : string)
| LogCalibrationSkipped
| LogCompleted (model_name : string) (overall_bias_score : Q)
| LogFailed (model_name : string) (e : exn).

Definition log_level_of (l : log_entry) : log_level :=
  match l with
  | LogInitialized _ => INFO
  | LogCalibrationSkipped => WARNING
  | LogCompleted _ _ => INFO
  | LogFailed _ _ => ERROR
  end.

Inductive result (A : Type) :=
| Ok (a : A)
| Err (e : exn).
Arguments Ok {A} a.
Arguments Err {A} e.

(** A computation returns a value or raises, and emits log entries. *)
Definition M (A : Type) : Type := (result A * list log_entry)%type.

Definition ret {A} (a : A) : M A := (Ok a, []).
Definition raise {A} (e : exn) : M A := (Err e, []).
Definition log (l : log_entry) : M unit := (Ok tt, [l]).

Definition bind {A B} (m : M A) (f : A -> M B) : M B :=
  match m with
  | (Ok a, l1) => let (r, l2) := f a in (r, l1 ++ l2)
  | (Err e, l1) => (Err e, l1)
  end.

(** [try: m except Exception as e: h(e)] *)
Definition catch {A} (m : M A) (h : exn -> M A) : M A :=
  match m with
  | (Ok a, l1) => (Ok a, l1)
  | (Err e, l1) => let (r, l2) := h e in (r, l1 ++ l2)
  end.

Declare Scope monad_scope.
Notation "x <- m ;; k" := (bind m (fun x => k))
  (at level 61, m at next level, right associativity) : monad_scope.
Notation "m ;;; k" := (bind m (fun _ => k))
  (at level 61, right associativity) : monad_scope.
Open Scope monad_scope.

(** A Python [for] loop threading an accumulator. *)
Fixpoint foldM {A B} (f : B -> A -> M B) (l : list A) (b : B) : M B :=
  match l with
  | [] => ret b
  | a :: r => b' <- f b a ;; foldM f r b'
  end.

(** ** NumPy, pandas and Python built-ins *)

(** [a < b] on floats. *)
Definition Qltb (a b : Q) : bool := negb (Qle_bool b a).

Definition Qsum (xs : list Q) : Q := fold_right Qplus 0 xs.

(** [np.mean(xs)]; every call site of the module guards it with a
    non-empty check. *)
Definition np_mean (xs : list Q) : Q := Qsum xs / inject_Z (Z.of_nat (length xs)).

(** The built-in [max] / [min] over a list: the first extremal element.
    Every call site guards the list to be non-empty. *)
Definition py_max (xs : list Q) : Q :=
  match xs with
  | [] => 0
  | x :: r => fold_left (fun acc y => if Qltb acc y then y else acc) r x
  end.

Definition py_min (xs : list Q) : Q :=
  match xs with
  | [] => 0
  | x :: r => fold_left (fun acc y => if Qltb y acc then y else acc) r x
  end.

(** [max(a, b)] *)
Definition py_max2 (a b : Q) : Q := py_max [a; b].

(** [np.sum(mask)] for a boolean mask. *)
Definition count_true (mask : list bool) : nat :=
  length (filter (fun b : bool => b) mask).

(** [arr[mask]] for a boolean mask: [IndexError] on a length mismatch. *)
Fixpoint select_masked {A} (xs : list A) (mask : list bool) : list A :=
  match xs, mask with
  | x :: xs', b :: mask' => if b then x :: select_masked xs' mask' else select_masked xs' mask'
  | _, _ => []
  end.

Definition select {A} (xs : list A) (mask : list bool) : M (list A) :=
  if Nat.eqb (length xs) (length mask) then ret (select_masked xs mask)
  else raise (IndexError (length xs) (length mask)).

(** [arr == v] for a numeric array. *)
Definition eq_mask (xs : list Q) (v : Q) : list bool := map (fun x => Qeq_bool x v) xs.

(** [np.all(np.isin(xs, [0, 1]))] *)
Definition all_binary (xs : list Q) : bool :=
  forallb (fun x => Qeq_bool x 0 || Qeq_bool x 1) xs.

(** Python dicts with string keys, in insertion order. *)
Definition dict (A : Type) := list (string * A).

Fixpoint dict_get {A} (d : dict A) (k : string) : option A :=
  match d with
  | [] => None
  | (k', v) :: r => if String.eqb k k' then Some v else dict_get r k
  end.

(** [d[k] = v]: an existing key keeps its position. *)
Fixpoint dict_set {A} (d : dict A) (k : string) (v : A) : dict A :=
  match d with
  | [] => [(k, v)]
  | (k', v') :: r => if String.eqb k k' then (k', v) :: r else (k', v') :: dict_set r k v
  end.

(** [d.update(d2)] *)
Definition dict_update {A} (d d2 : dict A) : dict A :=
  fold_left (fun acc '(k, v) => dict_set acc k v) d2 d.

(** [pd.DataFrame] of categorical columns. *)
Record DataFrame := {
  df_nrows : nat;                               (* len(df) *)
  df_columns : list (string * list string)
}.

(** Every column of a DataFrame has one entry per row. *)
Definition df_wf (df : DataFrame) : Prop :=
  Forall (fun c => length (snd c) = df_nrows df) (df_columns df).

Definition df_wfb (df : DataFrame) : bool :=
  forallb (fun c => Nat.eqb (length (snd c)) (df_nrows df)) (df_columns df).

(** [attr in df.columns] *)
Definition df_has_column (df : DataFrame) (a : string) : bool :=
  existsb (fun c => String.eqb (fst c) a) (df_columns df).

Fixpoint col_lookup (cs : list (string * list string)) (a : string) : option (list string) :=
  match cs with
  | [] => None
  | (n, c) :: r => if String.eqb n a then Some c else col_lookup r a
  end.

(** [df[attr]] *)
Definition df_column (df : DataFrame) (a : string) : M (list string) :=
  match col_lookup (df_columns df) a with
  | Some c => ret c
  | None => raise (KeyError a)
  end.

(** [series.unique()]: distinct values in order of first appearance. *)
Definition unique (col : list string) : list string :=
  fold_left (fun acc v => if existsb (String.eqb v) acc then acc else acc ++ [v]) col [].

(** [series == group] *)
Definition group_mask (col : list string) (g : string) : list bool :=
  map (fun v => String.eqb v g) col.

(** ** The detector and its constructor *)

(** [_get_detector_config(metric)] *)
Record DetectorConfig := {
  cfg_name : string;
  cfg_description : string;
  cfg_formula : string;
  cfg_threshold : Q
}.

Definition get_detector_config (threshold : Q) (m : BiasMetric) : DetectorConfig :=
  match m with
  | DEMOGRAPHIC_PARITY =>
      {| cfg_name := "Demographic Parity";
         cfg_description := "Ensures equal positive prediction rates across groups";
         cfg_formula := "P(Y_hat=1|A=0) = P(Y_hat=1|A=1)";
         cfg_threshold := threshold |}
  | EQUALIZED_ODDS =>
      {| cfg_name := "Equalized Odds";
         cfg_description := "Ensures equal TPR and FPR across groups";
         cfg_formula := "P(Y_hat=1|Y=y,A=0) = P(Y_hat=1|Y=y,A=1) for y in {0,1}";
         cfg_threshold := threshold |}
  | EQUAL_OPPORTUNITY =>
      {| cfg_name := "Equal Opportunity";
         cfg_description := "Ensures equal TPR across groups";
         cfg_formula := "P(Y_hat=1|Y=1,A=0) = P(Y_hat=1|Y=1,A=1)";
         cfg_threshold := threshold |}
  | CALIBRATION =>
      {| cfg_name := "Calibration";
         cfg_description := "Ensures equal calibration across groups";
         cfg_formula := "P(Y=1|Y_hat=v,A=0) = P(Y=1|Y_hat=v,A=1) for all v";
         cfg_threshold := threshold |}
  | COUNTERFACTUAL_FAIRNESS =>
      {| cfg_name := "Counterfactual Fairness";
         cfg_description := "Ensures predictions would be same in counterfactual world";
         cfg_formula := "P(Y_hat=1|A=0,U=u) = P(Y_hat=1|A=1,U=u) for all u";
         cfg_threshold := threshold |}
  end.

Record MLModelBiasDetector := {
  model_name : string;
  protected_attributes : list string;
  threshold : Q;
  metrics : list BiasMetric;
  detectors : dict DetectorConfig
}.

(** The default of the [threshold] parameter, [0.05]. *)
Definition default_threshold : Q := 5 # 100.

(** [metrics or list(BiasMetric)]: [None] and the empty list are falsy. *)
Definition metrics_or_default (metrics : option (list BiasMetric)) : list BiasMetric :=
  match metrics with
  | None | Some [] => all_BiasMetric
  | Some l => l
  end.

(** [_initialize_detectors] *)
Definition initialize_detectors (threshold : Q) (ms : list BiasMetric) : dict DetectorConfig :=
  fold_left (fun d m => dict_set d (metric_value m) (get_detector_config threshold m)) ms [].

(** [MLModelBiasDetector.__init__] *)
Definition init (model_name : string) (protected_attributes : list string) (threshold : Q)
    (metrics : option (list BiasMetric)) : M MLModelBiasDetector :=
  let ms := metrics_or_default metrics in
  let det := {| model_name := model_name;
                protected_attributes := protected_attributes;
                threshold := threshold;
                metrics := ms;
                detectors := initialize_detectors threshold ms |} in
  log (LogInitialized model_name) ;;; ret det.

(** ** [_validate_inputs] *)

Definition check_attributes (df : DataFrame) (attrs : list string) : M unit :=
  foldM (fun _ attr =>
           if df_has_column df attr then ret tt
           else raise (ValueError ("Protected attribute '" ++ attr ++ "' not found in data")%string))
        attrs tt.

Definition validate_inputs (det : MLModelBiasDetector) (predictions true_labels : list Q)
    (df : DataFrame) : M unit :=
  if negb (Nat.eqb (length predictions) (length true_labels)) then
    raise (ValueError "Predictions and true labels must have same length")
  else if negb (Nat.eqb (length predictions) (df_nrows df)) then
    raise (ValueError "Predictions and protected attributes must have same length")
  else
    check_attributes df (protected_attributes det) ;;;
    if negb (all_binary predictions) then
      raise (ValueError "Predictions must be binary (0 or 1)")
    else if negb (all_binary true_labels) then
      raise (ValueError "True labels must be binary (0 or 1)")
    else ret tt.

(** ** The bias metrics *)

Section Metrics.

Variable det : MLModelBiasDetector.

(** One attribute of a metric loop: [max_bias = max(max_bias, max(xs) - min(xs))]
    when [len(xs) >= 2]. *)
Definition fold_spread (max_bias : Q) (xs : list Q) : Q :=
  if Nat.leb 2 (length xs) then py_max2 max_bias (py_max xs - py_min xs) else max_bias.

(** [_demographic_parity]: one group of the inner loop. *)
Definition dp_group_step (predictions : list Q) (col : list string)
    (group_rates : list Q) (group : string) : M (list Q) :=
  let mask := group_mask col group in
  if Nat.ltb 0 (count_true mask) then
    sel <- select predictions mask ;;
    ret (group_rates ++ [np_mean sel])
  else ret group_rates.

Definition dp_attr_step (predictions : list Q) (df : DataFrame)
    (max_bias : Q) (attr : string) : M Q :=
  col <- df_column df attr ;;
  let groups := unique col in
  if Nat.ltb (length groups) 2 then ret max_bias
  else
    group_rates <- foldM (dp_group_step predictions col) groups [] ;;
    ret (fold_spread max_bias group_rates).

Definition demographic_parity (predictions : list Q) (df : DataFrame) : M Q :=
  foldM (dp_attr_step predictions df) (protected_attributes det) 0.

(** [_equalized_odds] *)
Definition eo_group_step (predictions true_labels : list Q) (col : list string)
    (acc : list Q * list Q) (group : string) : M (list Q * list Q) :=
  let mask := group_mask col group in
  if Nat.ltb 0 (count_true mask) then
    group_preds <- select predictions mask ;;
    group_labels <- select true_labels mask ;;
    tpr_scores <-
      (if Nat.ltb 0 (count_true (eq_mask group_labels 1)) then
         s <- select group_preds (eq_mask group_labels 1) ;;
         ret (fst acc ++ [np_mean s])
       else ret (fst acc)) ;;
    fpr_scores <-
      (if Nat.ltb 0 (count_true (eq_mask group_labels 0)) then
         s <- select group_preds (eq_mask group_labels 0) ;;
         ret (snd acc ++ [np_mean s])
       else ret (snd acc)) ;;
    ret (tpr_scores, fpr_scores)
  else ret acc.

Definition eo_attr_step (predictions true_labels : list Q) (df : DataFrame)
    (max_bias : Q) (attr : string) : M Q :=
  col <- df_column df attr ;;
  let groups := unique col in
  if Nat.ltb (length groups) 2 then ret max_bias
  else
    scores <- foldM (eo_group_step predictions true_labels col) groups ([], []) ;;
    ret (fold_spread (fold_spread max_bias (fst scores)) (snd scores)).

Definition equalized_odds (predictions true_labels : list Q) (df : DataFrame) : M Q :=
  foldM (eo_attr_step predictions true_labels df) (protected_attributes det) 0.

(** [_equal_opportunity] *)
Definition eopp_group_step (predictions true_labels : list Q) (col : list string)
    (tpr_scores : list Q) (group : string) : M (list Q) :=
  let mask := group_mask col group in
  if Nat.ltb 0 (count_true mask) then
    group_preds <- select predictions mask ;;
    group_labels <- select true_labels mask ;;
    if Nat.ltb 0 (count_true (eq_mask group_labels 1)) then
      s <- select group_preds (eq_mask group_labels 1) ;;
      ret (tpr_scores ++ [np_mean s])
    else ret tpr_scores
  else ret tpr_scores.

Definition eopp_attr_step (predictions true_labels : list Q) (df : DataFrame)
    (max_bias : Q) (attr : string) : M Q :=
  col <- df_column df attr ;;
  let groups := unique col in
  if Nat.ltb (length groups) 2 then ret max_bias
  else
    tpr_scores <- foldM (eopp_group_step predictions true_labels col) groups [] ;;
    ret (fold_spread max_bias tpr_scores).

Definition equal_opportunity (predictions true_labels : list Q) (df : DataFrame) : M Q :=
  foldM (eopp_attr_step predictions true_labels df) (protected_attributes det) 0.

(** [_calibration]; [np.linspace(0, 1, 11)] is taken exactly. *)
Definition bins : list Q := map (fun i => inject_Z (Z.of_nat i) / 10) (seq 0 11).

Definition cal_bin_step (group_probs group_labels : list Q)
    (calibration_errors : list Q) (i : nat) : M (list Q) :=
  let lo := nth i bins 0 in
  let hi := nth (S i) bins 0 in
  let bin_mask := map (fun p => Qle_bool lo p && Qltb p hi) group_probs in
  if Nat.ltb 0 (count_true bin_mask) then
    bp <- select group_probs bin_mask ;;
    bl <- select group_labels bin_mask ;;
    ret (calibration_errors ++ [Qabs (np_mean bp - np_mean bl)])
  else ret calibration_errors.

Definition cal_group_step (prediction_probabilities true_labels : list Q) (col : list string)
    (group_calibrations : list Q) (group : string) : M (list Q) :=
  let mask := group_mask col group in
  if Nat.ltb 0 (count_true mask) then
    group_probs <- select prediction_probabilities mask ;;
    group_labels <- select true_labels mask ;;
    calibration_errors <-
      foldM (cal_bin_step group_probs group_labels) (seq 0 (length bins - 1)) [] ;;
    match calibration_errors with
    | [] => ret group_calibrations
    | _ => ret (group_calibrations ++ [np_mean calibration_errors])
    end
  else ret group_calibrations.

Definition cal_attr_step (prediction_probabilities true_labels : list Q) (df : DataFrame)
    (max_bias : Q) (attr : string) : M Q :=
  col <- df_column df attr ;;
  let groups := unique col in
  if Nat.ltb (length groups) 2 then ret max_bias
  else
    group_calibrations <-
      foldM (cal_group_step prediction_probabilities true_labels col) groups [] ;;
    ret (fold_spread max_bias group_calibrations).

Definition calibration (prediction_probabilities true_labels : list Q) (df : DataFrame) : M Q :=
  foldM (cal_attr_step prediction_probabilities true_labels df) (protected_attributes det) 0.

(** [_counterfactual_fairness] *)
Definition counterfactual_fairness (predictions : list Q) (df : DataFrame) : M Q :=
  demographic_parity predictions df.

(** [_compute_bias_metric] *)
Definition compute_bias_metric (m : BiasMetric) (predictions true_labels : list Q)
    (df : DataFrame) (prediction_probabilities : option (list Q)) : M Q :=
  match m with
  | DEMOGRAPHIC_PARITY => demographic_parity predictions df
  | EQUALIZED_ODDS => equalized_odds predictions true_labels df
  | EQUAL_OPPORTUNITY => equal_opportunity predictions true_labels df
  | CALIBRATION =>
      match prediction_probabilities with
      | None => log LogCalibrationSkipped ;;; ret 0
      | Some probs => calibration probs true_labels df
      end
  | COUNTERFACTUAL_FAIRNESS => counterfactual_fairness predictions df
  end.

(** [_compute_group_bias] *)
Definition group_score (m : BiasMetric) (predictions true_labels : list Q)
    (mask : list bool) : M Q :=
  match m with
  | DEMOGRAPHIC_PARITY => s <- select predictions mask ;; ret (np_mean s)
  | EQUALIZED_ODDS | EQUAL_OPPORTUNITY =>
      lbls <- select true_labels mask ;;
      if Nat.ltb 0 (count_true (eq_mask lbls 1)) then
        ps <- select predictions mask ;;
        s <- select ps (eq_mask lbls 1) ;;
        ret (np_mean s)
      else ret 0
  | _ => ret 0
  end.

Definition cgb_group_step (m : BiasMetric) (predictions true_labels : list Q)
    (attr : string) (col : list string) (group_scores : dict Q) (group : string) : M (dict Q) :=
  let mask := group_mask col group in
  if Nat.ltb 0 (count_true mask) then
    let group_key := (attr ++ "_" ++ group ++ "_" ++ metric_value m)%string in
    score <- group_score m predictions true_labels mask ;;
    ret (dict_set group_scores group_key score)
  else ret group_scores.

Definition cgb_attr_step (m : BiasMetric) (predictions true_labels : list Q) (df : DataFrame)
    (group_scores : dict Q) (attr : string) : M (dict Q) :=
  col <- df_column df attr ;;
  foldM (cgb_group_step m predictions true_labels attr col) (unique col) group_scores.

Definition compute_group_bias (m : BiasMetric) (predictions true_labels : list Q)
    (df : DataFrame) : M (dict Q) :=
  foldM (cgb_attr_step m predictions true_labels df) (protected_attributes det) [].

End Metrics.

(** ** [_generate_recommendations] *)

Definition no_bias_notice : string := "âœ… No significant bias detected. Continue monitoring.".

(** The metric-specific branch of the [if/elif] chain. *)
Definition metric_recommendation (metric : string) : option string :=
  if String.eqb metric "demographic_parity" then
    Some "âš ï¸ Demographic parity violation detected. Consider rebalancing training data or applying fairness constraints during training."%string
  else if String.eqb metric "equalized_odds" then
    Some "âš ï¸ Equalized odds violation detected. Consider post-processing techniques to equalize true positive and false positive rates across groups."%string
  else if String.eqb metric "equal_opportunity" then
    Some "âš ï¸ Equal opportunity violation detected. Focus on equalizing true positive rates across protected groups."%string
  else if String.eqb metric "calibration" then
    Some "âš ï¸ Calibration bias detected. Consider recalibrating model predictions separately for each protected group."%string
  else None.

Definition general_recommendations : list string :=
  ["ðŸ”„ Retrain model with fairness-aware algorithms"%string;
   "ðŸ“Š Collect more representative training data";
   "ðŸŽ¯ Apply bias mitigation techniques (preprocessing, in-processing, or post-processing)";
   "ðŸ” Conduct regular bias audits with domain experts";
   "ðŸ“– Review model decisions with affected stakeholders"]%string.

Definition generate_recommendations (det : MLModelBiasDetector) (metric_scores group_scores : dict Q)
    (bias_detected : bool) : list string :=
  if negb bias_detected then [no_bias_notice]
  else
    let problematic_metrics :=
      map fst (filter (fun kv => Qltb (threshold det) (snd kv)) metric_scores) in
    flat_map (fun metric => match metric_recommendation metric with
                            | Some r => [r]
                            | None => []
                            end) problematic_metrics
    ++ general_recommendations.

(** ** [detect_bias] *)

Record Metadata := {
  md_model_name : string;
  md_sample_size : nat;
  md_protected_attributes : list string;
  md_metrics_computed : list string;
  md_threshold : Q;
  md_timestamp : string
}.

Record BiasDetectionResult := {
  overall_bias_score : Q;
  bias_detected : bool;
  threshold_exceeded : bool;
  metric_scores : dict Q;
  group_scores : dict Q;
  recommendations : list string;
  metadata : Metadata
}.

(** One iteration of [for metric in self.metrics]. *)
Definition metric_step (det : MLModelBiasDetector) (predictions true_labels : list Q)
    (df : DataFrame) (prediction_probabilities : option (list Q))
    (acc : dict Q * dict Q) (m : BiasMetric) : M (dict Q * dict Q) :=
  score <- compute_bias_metric det m predictions true_labels df prediction_probabilities ;;
  group_score <- compute_group_bias det m predictions true_labels df ;;
  ret (dict_set (fst acc) (metric_value m) score, dict_update (snd acc) group_score).

(** Everything after the metric loop; [now] is the reading of
    [pd.Timestamp.now().isoformat()]. *)
Definition build_report (det : MLModelBiasDetector) (metric_scores group_scores : dict Q)
    (sample_size : nat) (now : string) : BiasDetectionResult :=
  let overall := np_mean (map snd metric_scores) in
  let detected := Qltb (threshold det) overall in
  {| overall_bias_score := overall;
     bias_detected := detected;
     threshold_exceeded := detected;
     metric_scores := metric_scores;
     group_scores := group_scores;
     recommendations := generate_recommendations det metric_scores group_scores detected;
     metadata := {| md_model_name := model_name det;
                    md_sample_size := sample_size;
                    md_protected_attributes := protected_attributes det;
                    md_metrics_computed := map metric_value (metrics det);
                    md_threshold := threshold det;
                    md_timestamp := now |} |}.

(** The body of the [try] block. *)
Definition detect_body (det : MLModelBiasDetector) (predictions true_labels : list Q)
    (df : DataFrame) (prediction_probabilities : option (list Q)) (now : string)
    : M BiasDetectionResult :=
  validate_inputs det predictions true_labels df ;;;
  scores <- foldM (metric_step det predictions true_labels df prediction_probabilities)
                  (metrics det) ([], []) ;;
  let result := build_report det (fst scores) (snd scores) (length predictions) now in
  log (LogCompleted (model_name det) (overall_bias_score result)) ;;;
  ret result.

(** [detect_bias]: the [except] clause logs the error and re-raises. *)
Definition detect_bias (det : MLModelBiasDetector) (predictions true_labels : list Q)
    (df : DataFrame) (prediction_probabilities : option (list Q)) (now : string)
    : M BiasDetectionResult :=
  catch (detect_body det predictions true_labels df prediction_probabilities now)
        (fun e => log (LogFailed (model_name det) e) ;;; raise e).

(** ** Sample inputs *)

(** The scenario of the spec: [predictions=[1,1,0,0]], [true_labels=[1,0,0,1]],
    one attribute with values [a,a,b,b]. *)
Definition scen_df : DataFrame :=
  {| df_nrows := 4; df_columns := [("attr", ["a"; "a"; "b"; "b"])]%string |}.
Definition scen_predictions : list Q := [1; 1; 0; 0].
Definition scen_true_labels : list Q := [1; 0; 0; 1].

Definition scen_detector (threshold : Q) (metrics : option (list BiasMetric)) : MLModelBiasDetector :=
  match fst (init "model" ["attr"%string] threshold metrics) with
  | Ok d => d
  | Err _ => {| model_name := ""; protected_attributes := []; threshold := 0;
                metrics := []; detectors := [] |}
  end.

(** A report with its metadata timestamp replaced. *)
Definition set_timestamp (r : BiasDetectionResult) (now : string) : BiasDetectionResult :=
  {| overall_bias_score := overall_bias_score r;
     bias_detected := bias_detected r;
     threshold_exceeded := threshold_exceeded r;
     metric_scores := metric_scores r;
     group_scores := group_scores r;
     recommendations := recommendations r;
     metadata := {| md_model_name := md_model_name (metadata r);
                    md_sample_size := md_sample_size (metadata r);
                    md_protected_attributes := md_protected_attributes (metadata r);
                    md_metrics_computed := md_metrics_computed (metadata r);
                    md_threshold := md_threshold (metadata r);
                    md_timestamp := now |} |}.


(** ** Demographic parity as the specification words it

    Per attribute: the mean prediction of each group value with at least
    one member; the disparity is the largest rate minus the smallest;
    attributes with fewer than two distinct values are skipped; the score
    is the largest disparity over the attributes, 0 when none is left. *)
Definition spec_column (df : DataFrame) (a : string) : list string :=
  match col_lookup (df_columns df) a with Some c => c | None => [] end.

Definition spec_members (col : list string) (g : string) : nat :=
  length (filter (fun v => String.eqb v g) col).

Definition spec_group_rate (predictions : list Q) (col : list string) (g : string) : Q :=
  np_mean (map fst (filter (fun pv => String.eqb (snd pv) g) (combine predictions col))).

Definition spec_rates (predictions : list Q) (col : list string) : list Q :=
  map (spec_group_rate predictions col)
      (filter (fun g => Nat.ltb 0 (spec_members col g)) (unique col)).

Definition list_Qmax (l : list Q) : Q :=
  match l with [] => 0 | x :: r => fold_right Qmax x r end.

Definition list_Qmin (l : list Q) : Q :=
  match l with [] => 0 | x :: r => fold_right Qmin x r end.

Definition spec_disparity (predictions : list Q) (col : list string) : Q :=
  list_Qmax (spec_rates predictions col) - list_Qmin (spec_rates predictions col).

Definition spec_demographic_parity (attrs : list string) (predictions : list Q) (df : DataFrame) : Q :=
  fold_right Qmax 0
    (map (fun a => spec_disparity predictions (spec_column df a))
         (filter (fun a => Nat.leb 2 (length (unique (spec_column df a)))) attrs)).

(** ** [save_detector] and [load_detector] *)

(** The dict [save_detector] pickles. *)
Record SavedConfig := {
  saved_model_name : string;
  saved_protected_attributes : list string;
  saved_threshold : Q;
  saved_metrics : list string;
  saved_detectors : dict DetectorConfig
}.

(** The files [pickle.dump] writes, by path: writing a path replaces its
    content. *)
Definition FileStore := dict SavedConfig.

(** The log of the two methods: the entries of the constructor [load]
    calls, and their own [logger.info] lines. *)
Inductive io_log :=
| CoreLog (l : log_entry)
| LogSaved (filepath : string)
| LogLoaded (filepath : string).

Definition save_config (det : MLModelBiasDetector) : SavedConfig :=
  {| saved_model_name := model_name det;
     saved_protected_attributes := protected_attributes det;
     saved_threshold := threshold det;
     saved_metrics := map metric_value (metrics det);
     saved_detectors := detectors det |}.

(** [save_detector] *)
Definition save_detector (store : FileStore) (det : MLModelBiasDetector) (filepath : string)
    : FileStore * list io_log :=
  (dict_set store filepath (save_config det), [LogSaved filepath]).

(** [BiasMetric(v)]: the member with value [v], else [ValueError]. *)
Definition BiasMetric_of_value (v : string) : M BiasMetric :=
  match find (fun m => String.eqb (metric_value m) v) all_BiasMetric with
  | Some m => ret m
  | None => raise (ValueError ("'" ++ v ++ "' is not a valid BiasMetric")%string)
  end.

(** [[BiasMetric(m) for m in config["metrics"]]] *)
Definition parse_metrics (values : list string) : M (list BiasMetric) :=
  foldM (fun acc v => m <- BiasMetric_of_value v ;; ret (acc ++ [m])) values [].

(** The body of [load_detector] after [pickle.load]; [ms] is its local
    [metrics]. *)
Definition load_from_config (config : SavedConfig) : M MLModelBiasDetector :=
  ms <- parse_metrics (saved_metrics config) ;;
  detector <- init (saved_model_name config) (saved_protected_attributes config)
                   (saved_threshold config) (Some ms) ;;
  ret {| model_name := model_name detector;
         protected_attributes := protected_attributes detector;
         threshold := threshold detector;
         metrics := metrics detector;
         detectors := saved_detectors config |}.

(** [load_detector]: [open] raises [FileNotFoundError] on a path never
    written. *)
Inductive load_outcome :=
| FileNotFoundError (filepath : string)
| Unpickled (r : result MLModelBiasDetector) (logs : list io_log).

Definition load_detector (store : FileStore) (filepath : string) : load_outcome :=
  match dict_get store filepath with
  | None => FileNotFoundError filepath
  | Some config =>
      let (r, l) := load_from_config config in
      Unpickled r (map CoreLog l ++ match r with
                                   | Ok _ => [LogLoaded filepath]
                                   | Err _ => []
                                   end)
  end.


Definition empty_metrics_config : SavedConfig :=
  {| saved_model_name := "model"; saved_protected_attributes := ["attr"%string];
     saved_threshold := default_threshold; saved_metrics := []; saved_detectors := [] |}.

(** ** Predicates used in the statements *)

(** A proportion. *)
Definition proportion (q : Q) : Prop := 0 <= q /\ q <= 1.

(** [is_max m l]: [m] equals an element of [l] and bounds all of them. *)
Definition is_max (m : Q) (l : list Q) : Prop :=
  (exists x, In x l /\ x == m) /\ Forall (fun y => y <= m) l.

Definition is_min (m : Q) (l : list Q) : Prop :=
  (exists x, In x l /\ x == m) /\ Forall (fun y => m <= y) l.

Definition values_prop (d : dict Q) : Prop := Forall (fun kv => proportion (snd kv)) d.

(** One of the rules [_validate_inputs] checks is broken. *)
Definition validation_rule_violated (det : MLModelBiasDetector) (predictions true_labels : list Q)
    (df : DataFrame) : Prop :=
  length predictions <> length true_labels \/
  length predictions <> df_nrows df \/
  (exists a, In a (protected_attributes det) /\ df_has_column df a = false) \/
  all_binary predictions = false \/
  all_binary true_labels = false.

(** The [ValueError] message names a rule that is broken. *)
Definition names_violated_rule (det : MLModelBiasDetector) (predictions true_labels : list Q)
    (df : DataFrame) (msg : string) : Prop :=
  (msg = "Predictions and true labels must have same length"%string /\
   length predictions <> length true_labels) \/
  (msg = "Predictions and protected attributes must have same length"%string /\
   length predictions <> df_nrows df) \/
  (exists a, In a (protected_attributes det) /\ df_has_column df a = false /\
     msg = ("Protected attribute '" ++ a ++ "' not found in data")%string) \/
  (msg = "Predictions must be binary (0 or 1)"%string /\ all_binary predictions = false) \/
  (msg = "True labels must be binary (0 or 1)"%string /\ all_binary true_labels = false).

(** * Lemmas on the monad and the Python helpers *)

Lemma bind_ok_inv {A B} (m : M A) (f : A -> M B) (b : B) :
  fst (bind m f) = Ok b -> exists a, fst m = Ok a /\ fst (f a) = Ok b.
Proof.
  unfold bind. destruct m as [[a|e] l1]; simpl.
  - destruct (f a) as [r l2] eqn:E; simpl. intros ->. exists a. rewrite E. auto.
  - discriminate.
Qed.

Lemma bind_ok {A B} (m : M A) (f : A -> M B) (a : A) :
  fst m = Ok a -> fst (bind m f) = fst (f a).
Proof.
  unfold bind. destruct m as [[a'|e] l1]; simpl; intro H; inversion H; subst.
  destruct (f a) as [r l2]; reflexivity.
Qed.

Lemma bind_log_l {A B} (m : M A) (f : A -> M B) x :
  In x (snd m) -> In x (snd (bind m f)).
Proof.
  unfold bind. destruct m as [[a|e] l1]; simpl; auto.
  destruct (f a) as [r l2]; simpl. intro; apply in_or_app; auto.
Qed.

Lemma bind_log_r {A B} (m : M A) (f : A -> M B) a x :
  fst m = Ok a -> In x (snd (f a)) -> In x (snd (bind m f)).
Proof.
  unfold bind. destruct m as [[a'|e] l1]; simpl; intro H; inversion H; subst.
  destruct (f a) as [r l2]; simpl. intro; apply in_or_app; auto.
Qed.

(** Invariant of a successful loop, indexed by the processed prefix. *)
Lemma foldM_ok_prefix {A B} (P : list A -> B -> Prop) (f : B -> A -> M B) :
  forall l done b r,
    P done b ->
    (forall done b a b', P done b -> In a l -> fst (f b a) = Ok b' -> P (done ++ [a]) b') ->
    fst (foldM f l b) = Ok r -> P (done ++ l) r.
Proof.
  induction l as [|a l IH]; simpl; intros done b r Hb Hstep Hrun.
  - inversion Hrun; subst. rewrite app_nil_r. assumption.
  - apply bind_ok_inv in Hrun as [b' [H1 H2]].
    replace (done ++ a :: l) with ((done ++ [a]) ++ l) by (rewrite <- app_assoc; reflexivity).
    apply (IH (done ++ [a]) b' r).
    + eapply Hstep; [exact Hb | left; reflexivity | exact H1].
    + intros done' b0 a0 b0' HP Hin Hf. apply (Hstep done' b0 a0 b0'); simpl; auto.
    + exact H2.
Qed.

Lemma foldM_ok_inv {A B} (P : B -> Prop) (f : B -> A -> M B) l b r :
  P b ->
  (forall b a b', P b -> In a l -> fst (f b a) = Ok b' -> P b') ->
  fst (foldM f l b) = Ok r -> P r.
Proof.
  intros Hb Hstep Hrun.
  apply (foldM_ok_prefix (fun _ b => P b) f l [] b r); eauto.
Qed.

(** A loop whose steps succeed succeeds. *)
Lemma foldM_total {A B} (P : B -> Prop) (f : B -> A -> M B) l b :
  P b ->
  (forall b a, P b -> In a l -> exists b', fst (f b a) = Ok b' /\ P b') ->
  exists r, fst (foldM f l b) = Ok r /\ P r.
Proof.
  revert b; induction l as [|a l IH]; simpl; intros b Hb Hstep.
  - exists b; auto.
  - destruct (Hstep b a Hb (or_introl eq_refl)) as [b' [E Hb']].
    destruct (IH b' Hb') as [r [Er Hr]].
    + intros; apply Hstep; auto.
    + exists r. rewrite (bind_ok _ _ _ E). auto.
Qed.

(** A successful loop carries the log of each of its steps. *)
Lemma foldM_log {A B} (f : B -> A -> M B) (a : A) x :
  (forall b, In x (snd (f b a))) ->
  forall l b r, In a l -> fst (foldM f l b) = Ok r -> In x (snd (foldM f l b)).
Proof.
  intros Hx; induction l as [|a' l IH]; simpl; intros b r Hin Hrun; [contradiction|].
  destruct (fst (f b a')) as [b'|e] eqn:E.
  - destruct Hin as [<-|Hin].
    + apply bind_log_l, Hx.
    + apply (bind_log_r _ _ b'); auto.
      apply (IH b' r Hin). rewrite <- (bind_ok _ _ _ E). exact Hrun.
  - exfalso. apply bind_ok_inv in Hrun as [? [E' _]]. congruence.
Qed.

Lemma select_ok {A} (xs : list A) mask ys :
  fst (select xs mask) = Ok ys -> ys = select_masked xs mask /\ length xs = length mask.
Proof.
  unfold select. destruct (Nat.eqb_spec (length xs) (length mask)); simpl;
    intro H; inversion H; auto.
Qed.

Lemma select_total {A} (xs : list A) mask :
  length xs = length mask -> fst (select xs mask) = Ok (select_masked xs mask).
Proof.
  unfold select. intro E. rewrite E, Nat.eqb_refl. reflexivity.
Qed.

Lemma select_masked_Forall {A} (P : A -> Prop) xs mask :
  Forall P xs -> Forall P (select_masked xs mask).
Proof.
  revert mask; induction xs as [|x xs IH]; intros [|b mask] H; simpl; auto.
  inversion H; subst. destruct b; auto.
Qed.

Lemma select_masked_length {A} (xs : list A) mask :
  length xs = length mask -> length (select_masked xs mask) = count_true mask.
Proof.
  unfold count_true.
  revert mask; induction xs as [|x xs IH]; intros [|b mask] H; simpl in *; try lia.
  destruct b; simpl; auto.
Qed.

(** ** Bounds of the numeric helpers *)


Lemma Qltb_spec a b : Qltb a b = true <-> a < b.
Proof.
  unfold Qltb. rewrite negb_true_iff. split; intro H.
  - apply Qnot_le_lt. intro H'. apply Qle_bool_iff in H'. congruence.
  - destruct (Qle_bool b a) eqn:E; auto. apply Qle_bool_iff in E. exfalso. apply (Qlt_not_le a b); auto.
Qed.

Lemma Qltb_false a b : Qltb a b = false -> b <= a.
Proof.
  unfold Qltb. rewrite negb_false_iff. apply Qle_bool_iff.
Qed.

Lemma inject_length_succ {A} (x : A) r :
  inject_Z (Z.of_nat (length (x :: r))) == inject_Z (Z.of_nat (length r)) + 1.
Proof.
  simpl length. rewrite Nat2Z.inj_succ, <- Z.add_1_r, inject_Z_plus. reflexivity.
Qed.

Lemma inject_length_nonneg {A} (r : list A) : 0 <= inject_Z (Z.of_nat (length r)).
Proof.
  change 0 with (inject_Z 0). rewrite <- Zle_Qle. lia.
Qed.

(** The mean of values between [lo] and [hi] lies between them. *)
Lemma Qsum_bounds lo hi xs :
  Forall (fun x => lo <= x <= hi) xs ->
  lo * inject_Z (Z.of_nat (length xs)) <= Qsum xs <= hi * inject_Z (Z.of_nat (length xs)).
Proof.
  induction xs as [|x xs IH]; intro H.
  - change (inject_Z (Z.of_nat (length (@nil Q)))) with 0. unfold Qsum; simpl fold_right. lra.
  - inversion H as [|? ? Hx Hr]; subst. destruct (IH Hr) as [H1 H2].
    rewrite inject_length_succ. change (Qsum (x :: xs)) with (x + Qsum xs).
    set (n := inject_Z (Z.of_nat (length xs))) in *.
    assert (E1 : lo * (n + 1) == lo * n + lo) by ring.
    assert (E2 : hi * (n + 1) == hi * n + hi) by ring.
    rewrite E1, E2. lra.
Qed.

Lemma np_mean_bounds lo hi xs :
  xs <> [] -> Forall (fun x => lo <= x <= hi) xs -> lo <= np_mean xs <= hi.
Proof.
  intros Hne H. destruct (Qsum_bounds lo hi xs H) as [H1 H2].
  assert (Hn : 0 < inject_Z (Z.of_nat (length xs))).
  { destruct xs as [|x r]; [congruence|]. rewrite inject_length_succ.
    pose proof (inject_length_nonneg r). lra. }
  unfold np_mean. split.
  - apply Qle_shift_div_l; [exact Hn|]. exact H1.
  - apply Qle_shift_div_r; [exact Hn|]. exact H2.
Qed.

Lemma np_mean_nil : np_mean [] == 0.
Proof. reflexivity. Qed.

Lemma np_mean_unit xs : Forall proportion xs -> proportion (np_mean xs).
Proof.
  intro H. destruct xs as [|x r].
  - unfold proportion. rewrite np_mean_nil. lra.
  - apply np_mean_bounds; [discriminate | exact H].
Qed.



Lemma is_max_unique a b l : is_max a l -> is_max b l -> a == b.
Proof.
  intros [[x [Hx Ex]] Ha] [[y [Hy Ey]] Hb].
  rewrite Forall_forall in Ha, Hb. specialize (Ha y Hy). specialize (Hb x Hx). lra.
Qed.

Lemma is_min_unique a b l : is_min a l -> is_min b l -> a == b.
Proof.
  intros [[x [Hx Ex]] Ha] [[y [Hy Ey]] Hb].
  rewrite Forall_forall in Ha, Hb. specialize (Ha y Hy). specialize (Hb x Hx). lra.
Qed.

Lemma py_max_is_max x r : is_max (py_max (x :: r)) (x :: r).
Proof.
  unfold py_max. cut (forall acc done, is_max acc done ->
    is_max (fold_left (fun acc y => if Qltb acc y then y else acc) r acc) (done ++ r)).
  { intro H. apply (H x [x]). split; [exists x; split; [left|]; auto; reflexivity|].
    constructor; [apply Qle_refl|constructor]. }
  induction r as [|y r IH]; intros acc done Hacc; simpl.
  - rewrite app_nil_r; exact Hacc.
  - replace (done ++ y :: r) with ((done ++ [y]) ++ r) by (rewrite <- app_assoc; reflexivity).
    apply IH. destruct Hacc as [[z [Hz Ez]] Hall].
    destruct (Qltb acc y) eqn:E.
    + apply Qltb_spec in E. split.
      * exists y. split; [apply in_or_app; right; left; auto | reflexivity].
      * apply Forall_app; split; [|constructor; [apply Qle_refl|constructor]].
        eapply Forall_impl; [|exact Hall]. simpl; intros; lra.
    + apply Qltb_false in E. split.
      * exists z. split; [apply in_or_app; left; auto | exact Ez].
      * apply Forall_app; split; [exact Hall|constructor; [exact E|constructor]].
Qed.

Lemma py_min_is_min x r : is_min (py_min (x :: r)) (x :: r).
Proof.
  unfold py_min. cut (forall acc done, is_min acc done ->
    is_min (fold_left (fun acc y => if Qltb y acc then y else acc) r acc) (done ++ r)).
  { intro H. apply (H x [x]). split; [exists x; split; [left|]; auto; reflexivity|].
    constructor; [apply Qle_refl|constructor]. }
  induction r as [|y r IH]; intros acc done Hacc; simpl.
  - rewrite app_nil_r; exact Hacc.
  - replace (done ++ y :: r) with ((done ++ [y]) ++ r) by (rewrite <- app_assoc; reflexivity).
    apply IH. destruct Hacc as [[z [Hz Ez]] Hall].
    destruct (Qltb y acc) eqn:E.
    + apply Qltb_spec in E. split.
      * exists y. split; [apply in_or_app; right; left; auto | reflexivity].
      * apply Forall_app; split; [|constructor; [apply Qle_refl|constructor]].
        eapply Forall_impl; [|exact Hall]. simpl; intros; lra.
    + apply Qltb_false in E. split.
      * exists z. split; [apply in_or_app; left; auto | exact Ez].
      * apply Forall_app; split; [exact Hall|constructor; [exact E|constructor]].
Qed.

Lemma is_max_unit m l : is_max m l -> Forall proportion l -> proportion m.
Proof.
  intros [[x [Hx Ex]] _] H. rewrite Forall_forall in H. specialize (H x Hx).
  unfold proportion in *. lra.
Qed.

Lemma is_min_unit m l : is_min m l -> Forall proportion l -> proportion m.
Proof.
  intros [[x [Hx Ex]] _] H. rewrite Forall_forall in H. specialize (H x Hx).
  unfold proportion in *. lra.
Qed.

(** [max(xs) - min(xs)] of proportions is a proportion. *)
Lemma spread_unit xs : xs <> [] -> Forall proportion xs -> proportion (py_max xs - py_min xs).
Proof.
  intros Hne H. destruct xs as [|x r]; [congruence|].
  pose proof (py_max_is_max x r) as Hmax. pose proof (py_min_is_min x r) as Hmin.
  pose proof (is_max_unit _ _ Hmax H) as Umax. pose proof (is_min_unit _ _ Hmin H) as Umin.
  destruct Hmax as [_ Hmax]. destruct Hmin as [_ Hmin].
  inversion Hmax as [|? ? Lx _]; subst. inversion Hmin as [|? ? Ly _]; subst.
  unfold proportion in *. lra.
Qed.

Lemma py_max2_unit a b : proportion a -> proportion b -> proportion (py_max2 a b).
Proof.
  unfold py_max2, py_max. simpl. destruct (Qltb a b); auto.
Qed.

Lemma fold_spread_unit mb xs : proportion mb -> Forall proportion xs -> proportion (fold_spread mb xs).
Proof.
  unfold fold_spread. intros Hmb H. destruct (Nat.leb 2 (length xs)) eqn:E; auto.
  apply py_max2_unit; auto. apply spread_unit; auto.
  intros ->. discriminate.
Qed.

Lemma unit_Forall_app xs x : Forall proportion xs -> proportion x -> Forall proportion (xs ++ [x]).
Proof.
  intros; apply Forall_app; split; auto.
Qed.

Lemma all_binary_unit xs : all_binary xs = true -> Forall proportion xs.
Proof.
  unfold all_binary. rewrite forallb_forall, Forall_forall. intros H x Hx.
  specialize (H x Hx). apply orb_true_iff in H as [H|H]; apply Qeq_bool_iff in H;
    unfold proportion; rewrite H; lra.
Qed.

(** ** Running a successful computation backwards *)

Lemma ret_ok_inv {A} (a b : A) : fst (ret a) = Ok b -> a = b.
Proof. simpl; intro H; inversion H; reflexivity. Qed.

Lemma raise_ok_inv {A} e (b : A) : fst (raise e) = Ok b -> False.
Proof. simpl; discriminate. Qed.

Ltac inv_M :=
  repeat match goal with
  | H : fst _ = Ok _ |- _ => progress (cbv beta zeta in H)
  | H : fst (bind _ _) = Ok _ |- _ =>
      let a := fresh "a" in let Ha := fresh "Ha" in
      apply bind_ok_inv in H; destruct H as [a [Ha H]]
  | H : fst (ret _) = Ok _ |- _ => apply ret_ok_inv in H; subst
  | H : fst (raise _) = Ok _ |- _ => exfalso; exact (raise_ok_inv _ _ H)
  | H : fst (select _ _) = Ok _ |- _ =>
      let E := fresh "Elen" in apply select_ok in H; destruct H as [H E]; subst
  | H : fst (if ?c then _ else _) = Ok _ |- _ =>
      let E := fresh "Ec" in destruct c eqn:E
  | H : fst (match ?c with [] => _ | _ :: _ => _ end) = Ok _ |- _ =>
      let E := fresh "Ec" in destruct c eqn:E
  end.

Lemma validate_ok det predictions true_labels df u :
  fst (validate_inputs det predictions true_labels df) = Ok u ->
  length predictions = length true_labels /\ length predictions = df_nrows df /\
  (forall a, In a (protected_attributes det) -> df_has_column df a = true) /\
  all_binary predictions = true /\ all_binary true_labels = true.
Proof.
  unfold validate_inputs. intro H. inv_M.
  apply negb_false_iff, Nat.eqb_eq in Ec. apply negb_false_iff, Nat.eqb_eq in Ec0.
  apply negb_false_iff in Ec1. apply negb_false_iff in Ec2.
  repeat split; auto.
  unfold check_attributes in Ha.
  intros a0 Hin.
  assert (HP : forall x, In x ([] ++ protected_attributes det) -> df_has_column df x = true).
  { eapply (foldM_ok_prefix (fun done (_ : unit) => forall x, In x done -> df_has_column df x = true));
      [simpl; tauto | | exact Ha].
    intros done b x b' Hd _ Hs x' Hx'. apply in_app_or in Hx' as [Hx'|[<-|[]]]; auto.
    cbv beta in Hs. inv_M; auto. }
  apply HP; exact Hin.
Qed.

Lemma detect_bias_ok det predictions true_labels df probs now r :
  fst (detect_bias det predictions true_labels df probs now) = Ok r ->
  exists u scores,
    fst (validate_inputs det predictions true_labels df) = Ok u /\
    fst (foldM (metric_step det predictions true_labels df probs) (metrics det) ([], [])) = Ok scores /\
    r = build_report det (fst scores) (snd scores) (length predictions) now.
Proof.
  unfold detect_bias, catch.
  destruct (detect_body det predictions true_labels df probs now) as [[r'|e] l] eqn:E.
  - simpl. intro H; inversion H; subst.
    assert (Hb : fst (detect_body det predictions true_labels df probs now) = Ok r)
      by (rewrite E; reflexivity).
    unfold detect_body in Hb. inv_M. eauto.
  - simpl. discriminate.
Qed.


Lemma dict_set_nonempty {A} (d : dict A) k v : dict_set d k v <> [].
Proof. destruct d as [|[k' v'] d]; simpl; [discriminate|]. destruct (String.eqb k k'); discriminate. Qed.

Lemma metric_loop_nonempty det predictions true_labels df probs scores :
  metrics det <> [] ->
  fst (foldM (metric_step det predictions true_labels df probs) (metrics det) ([], [])) = Ok scores ->
  fst scores <> [].
Proof.
  intros Hne Hrun.
  assert (H : [] ++ metrics det = [] \/ fst scores <> []).
  { eapply (foldM_ok_prefix (fun done (acc : dict Q * dict Q) => done = [] \/ fst acc <> []));
      [left; reflexivity | | exact Hrun].
    intros done b a b' _ _ Hs. unfold metric_step in Hs. inv_M. right. apply dict_set_nonempty. }
  destruct H as [H|H]; auto.
Qed.

Lemma init_ok model_name attrs threshold metrics :
  fst (init model_name attrs threshold metrics) =
  Ok {| model_name := model_name;
        protected_attributes := attrs;
        threshold := threshold;
        metrics := metrics_or_default metrics;
        detectors := initialize_detectors threshold (metrics_or_default metrics) |}.
Proof. reflexivity. Qed.

Lemma metrics_or_default_nonempty metrics : metrics_or_default metrics <> [].
Proof. destruct metrics as [[|m l]|]; simpl; discriminate. Qed.

(** ** Every score is a proportion *)


Lemma proportion_0 : proportion 0.
Proof. unfold proportion; lra. Qed.

Lemma dict_set_prop d k v : values_prop d -> proportion v -> values_prop (dict_set d k v).
Proof.
  unfold values_prop. induction d as [|[k' v'] d IH]; simpl; intros Hd Hv.
  - constructor; auto.
  - inversion Hd; subst. destruct (String.eqb k k'); constructor; auto.
Qed.

Lemma dict_update_prop d d2 : values_prop d -> values_prop d2 -> values_prop (dict_update d d2).
Proof.
  unfold dict_update. revert d. induction d2 as [|[k v] d2 IH]; simpl; intros d Hd H2; auto.
  inversion H2; subst. apply IH; auto. apply dict_set_prop; auto.
Qed.

Lemma select_masked_map_true {A} (f : A -> bool) xs :
  Forall (fun x => f x = true) (select_masked xs (map f xs)).
Proof.
  induction xs as [|x xs IH]; simpl; auto. destruct (f x) eqn:E; auto.
Qed.

Lemma bins_prop i : proportion (nth i bins 0).
Proof.
  assert (Hb : forallb (fun q => Qle_bool 0 q && Qle_bool q 1) bins = true) by (vm_compute; reflexivity).
  rewrite forallb_forall in Hb.
  destruct (Nat.lt_ge_cases i (length bins)) as [Hi|Hi].
  - specialize (Hb _ (nth_In bins 0 Hi)). apply andb_true_iff in Hb as [H1 H2].
    apply Qle_bool_iff in H1. apply Qle_bool_iff in H2. split; auto.
  - rewrite nth_overflow by exact Hi. apply proportion_0.
Qed.

Lemma Qabs_diff_prop a b : proportion a -> proportion b -> proportion (Qabs (a - b)).
Proof.
  intros Ha Hb. apply Qabs_case; intros; unfold proportion in *; lra.
Qed.

Section Bounds.

Variable det : MLModelBiasDetector.
Variables predictions true_labels : list Q.
Hypothesis Hpred : Forall proportion predictions.
Hypothesis Hlab : Forall proportion true_labels.

Lemma demographic_parity_prop df s :
  fst (demographic_parity det predictions df) = Ok s -> proportion s.
Proof.
  intro H. eapply (foldM_ok_inv proportion); [apply proportion_0 | | exact H].
  intros mb a mb' Hmb _ Hs. unfold dp_attr_step in Hs. inv_M; auto.
  apply fold_spread_unit; auto.
  eapply (foldM_ok_inv (Forall proportion)); [constructor | | eassumption].
  intros rates g rates' Hr _ Hg. unfold dp_group_step in Hg. inv_M; auto.
  apply unit_Forall_app; auto. apply np_mean_unit, select_masked_Forall; auto.
Qed.

Lemma equalized_odds_prop df s :
  fst (equalized_odds det predictions true_labels df) = Ok s -> proportion s.
Proof.
  intro H. eapply (foldM_ok_inv proportion); [apply proportion_0 | | exact H].
  intros mb a mb' Hmb _ Hs. unfold eo_attr_step in Hs. inv_M; auto.
  assert (Hsc : Forall proportion (fst a1) /\ Forall proportion (snd a1)).
  { revert Ha0.
    apply (foldM_ok_inv (fun acc => Forall proportion (fst acc) /\ Forall proportion (snd acc)));
      [simpl; split; constructor | ].
    intros [tp fp] g acc' [Ht Hf] _ Hg. unfold eo_group_step in Hg. simpl in Hg. inv_M; simpl; auto;
      repeat split; auto; apply unit_Forall_app; auto; apply np_mean_unit;
      repeat apply select_masked_Forall; auto. }
  destruct Hsc. apply fold_spread_unit; auto. apply fold_spread_unit; auto.
Qed.

Lemma equal_opportunity_prop df s :
  fst (equal_opportunity det predictions true_labels df) = Ok s -> proportion s.
Proof.
  intro H. eapply (foldM_ok_inv proportion); [apply proportion_0 | | exact H].
  intros mb a mb' Hmb _ Hs. unfold eopp_attr_step in Hs. inv_M; auto.
  apply fold_spread_unit; auto.
  eapply (foldM_ok_inv (Forall proportion)); [constructor | | eassumption].
  intros tp g tp' Ht _ Hg. unfold eopp_group_step in Hg. inv_M; auto.
  apply unit_Forall_app; auto. apply np_mean_unit. repeat apply select_masked_Forall; auto.
Qed.

(** The probabilities are not validated; the calibration score is a
    proportion whatever they are. *)
Lemma calibration_prop probs df s :
  fst (calibration det probs true_labels df) = Ok s -> proportion s.
Proof.
  intro H. eapply (foldM_ok_inv proportion); [apply proportion_0 | | exact H].
  intros mb a mb' Hmb _ Hs. unfold cal_attr_step in Hs. inv_M; auto.
  apply fold_spread_unit; auto.
  eapply (foldM_ok_inv (Forall proportion)); [constructor | | eassumption].
  intros gc g gc' Hgc _ Hg. unfold cal_group_step in Hg. inv_M; auto.
  apply unit_Forall_app; auto. apply np_mean_unit.
  revert Ha3. apply (foldM_ok_inv (Forall proportion)); [constructor | ].
  intros errs i errs' He _ Hb. unfold cal_bin_step in Hb. inv_M; auto.
  apply unit_Forall_app; auto. apply Qabs_diff_prop; apply np_mean_unit.
  - pose proof (bins_prop i) as Hlo. pose proof (bins_prop (S i)) as Hhi.
    eapply Forall_impl; [|apply select_masked_map_true].
    cbv beta. intros p Hp. apply andb_true_iff in Hp as [H1 H2].
    apply Qle_bool_iff in H1. apply Qltb_spec in H2. unfold proportion in *. lra.
  - repeat apply select_masked_Forall; auto.
Qed.

Lemma compute_bias_metric_prop m df probs s :
  fst (compute_bias_metric det m predictions true_labels df probs) = Ok s -> proportion s.
Proof.
  destruct m; simpl compute_bias_metric.
  - apply demographic_parity_prop.
  - apply equalized_odds_prop.
  - apply equal_opportunity_prop.
  - destruct probs as [probs|]; [apply calibration_prop|].
    intro H. simpl in H. inversion H; subst. apply proportion_0.
  - apply demographic_parity_prop.
Qed.

Lemma compute_group_bias_prop m df g :
  fst (compute_group_bias det m predictions true_labels df) = Ok g -> values_prop g.
Proof.
  intro H. eapply (foldM_ok_inv values_prop); [constructor | | exact H].
  intros gs a gs' Hgs _ Hs. unfold cgb_attr_step in Hs. inv_M.
  eapply (foldM_ok_inv values_prop); [exact Hgs | | eassumption].
  intros gs1 grp gs2 H1 _ Hg. unfold cgb_group_step in Hg. inv_M; auto.
  apply dict_set_prop; auto.
  unfold group_score in *. destruct m; inv_M; try apply proportion_0;
    apply np_mean_unit; repeat apply select_masked_Forall; auto.
Qed.

Lemma metric_loop_prop df probs l acc scores :
  values_prop (fst acc) -> values_prop (snd acc) ->
  fst (foldM (metric_step det predictions true_labels df probs) l acc) = Ok scores ->
  values_prop (fst scores) /\ values_prop (snd scores).
Proof.
  intros H1 H2.
  apply (foldM_ok_inv (fun acc => values_prop (fst acc) /\ values_prop (snd acc)));
    [split; auto | ].
  intros [ms gs] m acc' [Hm Hg] _ Hs. unfold metric_step in Hs. inv_M. simpl.
  split.
  - apply dict_set_prop; auto. eapply compute_bias_metric_prop; eauto.
  - apply dict_update_prop; auto. eapply compute_group_bias_prop; eauto.
Qed.

End Bounds.

(** ** Where each metric score comes from *)

Lemma metric_value_inj m m' : metric_value m = metric_value m' -> m = m'.
Proof. destruct m, m'; simpl; intro H; try reflexivity; discriminate H. Qed.

Lemma dict_get_set_same {A} (d : dict A) k v : dict_get (dict_set d k v) k = Some v.
Proof.
  induction d as [|[k' v'] d IH]; simpl.
  - rewrite String.eqb_refl. reflexivity.
  - destruct (String.eqb_spec k k') as [->|Hne]; simpl.
    + rewrite String.eqb_refl. reflexivity.
    + apply String.eqb_neq in Hne. rewrite Hne. exact IH.
Qed.

Lemma dict_get_set_other {A} (d : dict A) k k' v :
  k' <> k -> dict_get (dict_set d k v) k' = dict_get d k'.
Proof.
  intro Hne. induction d as [|[k0 v0] d IH]; simpl.
  - apply String.eqb_neq in Hne. rewrite Hne. reflexivity.
  - destruct (String.eqb_spec k k0) as [->|Hk]; simpl.
    + apply String.eqb_neq in Hne. rewrite Hne. reflexivity.
    + destruct (String.eqb k' k0); [reflexivity|exact IH].
Qed.

(** After a successful metric loop, the score stored under a configured
    metric's name is the value its computation returns. *)
Lemma metric_loop_lookup det predictions true_labels df probs scores :
  fst (foldM (metric_step det predictions true_labels df probs) (metrics det) ([], [])) = Ok scores ->
  forall m, In m (metrics det) ->
    exists s, dict_get (fst scores) (metric_value m) = Some s /\
              fst (compute_bias_metric det m predictions true_labels df probs) = Ok s.
Proof.
  intro Hrun.
  assert (H : (forall m, In m ([] ++ metrics det) -> exists s, dict_get (fst scores) (metric_value m) = Some s) /\
              (forall m v, dict_get (fst scores) (metric_value m) = Some v ->
                 fst (compute_bias_metric det m predictions true_labels df probs) = Ok v)).
  { revert Hrun.
    apply (foldM_ok_prefix (fun done (acc : dict Q * dict Q) =>
      (forall m, In m done -> exists s, dict_get (fst acc) (metric_value m) = Some s) /\
      (forall m v, dict_get (fst acc) (metric_value m) = Some v ->
         fst (compute_bias_metric det m predictions true_labels df probs) = Ok v))).
    - split; [simpl; tauto | simpl; discriminate].
    - intros done [ms gs] m [ms' gs'] [H1 H2] _ Hs. unfold metric_step in Hs. inv_M.
      simpl in *. inversion Hs; subst. split.
      + intros m' Hm'. apply in_app_or in Hm' as [Hm'|[<-|[]]].
        * destruct (String.eqb_spec (metric_value m') (metric_value m)) as [E|E].
          -- rewrite E, dict_get_set_same. eauto.
          -- rewrite dict_get_set_other by exact E. apply H1; exact Hm'.
        * rewrite dict_get_set_same. eauto.
      + intros m' v Hv.
        destruct (String.eqb_spec (metric_value m') (metric_value m)) as [E|E].
        * apply metric_value_inj in E; subst. rewrite dict_get_set_same in Hv.
          inversion Hv; subst. exact Ha.
        * rewrite dict_get_set_other in Hv by exact E. apply H2; exact Hv. }
  intros m Hm. destruct H as [H1 H2]. destruct (H1 m Hm) as [s Hs]. exists s; split; auto.
Qed.

(** ** A valid batch never raises *)

Lemma group_mask_length col g : length (group_mask col g) = length col.
Proof. apply length_map. Qed.

Lemma eq_mask_length xs v : length (eq_mask xs v) = length xs.
Proof. apply length_map. Qed.

Lemma select_bind {A B} (xs : list A) mask (f : list A -> M B) :
  length xs = length mask -> fst (bind (select xs mask) f) = fst (f (select_masked xs mask)).
Proof. intro E. apply bind_ok, select_total, E. Qed.

Section Totality.

Variable det : MLModelBiasDetector.
Variables predictions true_labels : list Q.
Variable df : DataFrame.
Hypothesis Hcols : forall a, In a (protected_attributes det) ->
  exists col, fst (df_column df a) = Ok col /\ length col = length predictions.
Hypothesis Hlen : length true_labels = length predictions.

(** The shape shared by the per-attribute steps of the metric loops. *)
Lemma attr_step_total {C} (inner : list string -> M C) (finish : C -> Q) mb a :
  In a (protected_attributes det) ->
  (forall col, length col = length predictions -> exists c, fst (inner col) = Ok c) ->
  exists mb', fst (col <- df_column df a ;;
                   if Nat.ltb (length (unique col)) 2 then ret mb
                   else c <- inner col ;; ret (finish c)) = Ok mb'.
Proof.
  intros Ha Hinner. destruct (Hcols a Ha) as [col [Hc Hl]].
  rewrite (bind_ok _ _ _ Hc). destruct (Nat.ltb (length (unique col)) 2).
  - eexists; reflexivity.
  - destruct (Hinner col Hl) as [c Hc']. rewrite (bind_ok _ _ _ Hc'). eexists; reflexivity.
Qed.

Lemma demographic_parity_total : exists s, fst (demographic_parity det predictions df) = Ok s.
Proof.
  destruct (foldM_total (fun _ => True) (dp_attr_step predictions df) (protected_attributes det) 0)
    as [s [Hs _]]; [exact I| |eauto].
  intros mb a _ Ha. destruct (attr_step_total (fun col => foldM (dp_group_step predictions col) (unique col) [])
              (fun r => fold_spread mb r) mb a Ha) as [mb' H].
  - intros col Hl.
    destruct (foldM_total (fun _ => True) (dp_group_step predictions col) (unique col) [])
      as [r [Hr _]]; [exact I| |eauto].
    intros rates g _ _. unfold dp_group_step. destruct (Nat.ltb 0 _).
    + rewrite select_bind by (rewrite group_mask_length; auto). eexists; split; [reflexivity|exact I].
    + eexists; split; [reflexivity|exact I].
  - exists mb'. split; [exact H|exact I].
Qed.

Lemma equalized_odds_total : exists s, fst (equalized_odds det predictions true_labels df) = Ok s.
Proof.
  destruct (foldM_total (fun _ => True) (eo_attr_step predictions true_labels df)
              (protected_attributes det) 0) as [s [Hs _]]; [exact I| |eauto].
  intros mb a _ Ha.
  destruct (attr_step_total
              (fun col => foldM (eo_group_step predictions true_labels col) (unique col) ([], []))
              (fun sc => fold_spread (fold_spread mb (fst sc)) (snd sc)) mb a Ha)
    as [mb' H].
  - intros col Hl.
    destruct (foldM_total (fun _ => True) (eo_group_step predictions true_labels col) (unique col) ([], []))
      as [r [Hr _]]; [exact I| |eauto].
    intros acc g _ _. unfold eo_group_step. destruct (Nat.ltb 0 _).
    + rewrite select_bind by (rewrite group_mask_length; auto).
      rewrite select_bind by (rewrite group_mask_length; lia).
      assert (Hgl : length (select_masked predictions (group_mask col g)) =
                    length (select_masked true_labels (group_mask col g))).
      { rewrite !select_masked_length; auto; rewrite group_mask_length; lia. }
      set (gp := select_masked predictions (group_mask col g)) in *.
      set (gl := select_masked true_labels (group_mask col g)) in *.
      destruct (Nat.ltb 0 (count_true (eq_mask gl 1))).
      * rewrite (bind_ok _ _ (fst acc ++ [np_mean (select_masked gp (eq_mask gl 1))]))
          by (rewrite select_bind by (rewrite eq_mask_length; auto); reflexivity).
        destruct (Nat.ltb 0 (count_true (eq_mask gl 0))).
        -- rewrite (bind_ok _ _ (snd acc ++ [np_mean (select_masked gp (eq_mask gl 0))]))
             by (rewrite select_bind by (rewrite eq_mask_length; auto); reflexivity).
           eexists; split; [reflexivity|exact I].
        -- eexists; split; [reflexivity|exact I].
      * rewrite (bind_ok _ _ (fst acc)) by reflexivity.
        destruct (Nat.ltb 0 (count_true (eq_mask gl 0))).
        -- rewrite (bind_ok _ _ (snd acc ++ [np_mean (select_masked gp (eq_mask gl 0))]))
             by (rewrite select_bind by (rewrite eq_mask_length; auto); reflexivity).
           eexists; split; [reflexivity|exact I].
        -- eexists; split; [reflexivity|exact I].
    + eexists; split; [reflexivity|exact I].
  - exists mb'. split; [exact H|exact I].
Qed.


Lemma equal_opportunity_total : exists s, fst (equal_opportunity det predictions true_labels df) = Ok s.
Proof.
  destruct (foldM_total (fun _ => True) (eopp_attr_step predictions true_labels df)
              (protected_attributes det) 0) as [s [Hs _]]; [exact I| |eauto].
  intros mb a _ Ha.
  destruct (attr_step_total
              (fun col => foldM (eopp_group_step predictions true_labels col) (unique col) [])
              (fun r => fold_spread mb r) mb a Ha) as [mb' H].
  - intros col Hl.
    destruct (foldM_total (fun _ => True) (eopp_group_step predictions true_labels col) (unique col) [])
      as [r [Hr _]]; [exact I| |eauto].
    intros acc g _ _. unfold eopp_group_step. destruct (Nat.ltb 0 _).
    + rewrite select_bind by (rewrite group_mask_length; auto).
      rewrite select_bind by (rewrite group_mask_length; lia).
      assert (Hgl : length (select_masked predictions (group_mask col g)) =
                    length (select_masked true_labels (group_mask col g))).
      { rewrite !select_masked_length; auto; rewrite group_mask_length; lia. }
      destruct (Nat.ltb 0 _).
      * rewrite select_bind by (rewrite eq_mask_length; auto).
        eexists; split; [reflexivity|exact I].
      * eexists; split; [reflexivity|exact I].
    + eexists; split; [reflexivity|exact I].
  - exists mb'. split; [exact H|exact I].
Qed.

Lemma compute_group_bias_total m : exists g, fst (compute_group_bias det m predictions true_labels df) = Ok g.
Proof.
  destruct (foldM_total (fun _ => True) (cgb_attr_step m predictions true_labels df)
              (protected_attributes det) []) as [g [Hg _]]; [exact I| |eauto].
  intros gs a _ Ha. destruct (Hcols a Ha) as [col [Hc Hl]].
  unfold cgb_attr_step. rewrite (bind_ok _ _ _ Hc).
  destruct (foldM_total (fun _ => True) (cgb_group_step m predictions true_labels a col) (unique col) gs)
    as [r [Hr _]]; [exact I| |eauto].
  intros gs1 grp _ _. unfold cgb_group_step. destruct (Nat.ltb 0 _); [|eexists; split; [reflexivity|exact I]].
  assert (Hs : exists sc, fst (group_score m predictions true_labels (group_mask col grp)) = Ok sc).
  { unfold group_score. destruct m;
      try (rewrite select_bind by (rewrite group_mask_length; lia));
      try (eexists; reflexivity);
      destruct (Nat.ltb 0 _);
      try (rewrite select_bind by (rewrite group_mask_length; lia);
           rewrite select_bind
             by (rewrite eq_mask_length, !select_masked_length; auto; rewrite group_mask_length; lia));
      eexists; reflexivity. }
  destruct Hs as [sc Hs]. rewrite (bind_ok _ _ _ Hs). eexists; split; [reflexivity|exact I].
Qed.

Lemma metric_loop_total_no_probs :
  exists scores,
    fst (foldM (metric_step det predictions true_labels df None) (metrics det) ([], [])) = Ok scores.
Proof.
  destruct (foldM_total (fun _ => True) (metric_step det predictions true_labels df None)
              (metrics det) ([], [])) as [sc [Hsc _]]; [exact I| |eauto].
  intros acc m _ _. unfold metric_step.
  assert (Hm : exists s, fst (compute_bias_metric det m predictions true_labels df None) = Ok s).
  { destruct m; simpl compute_bias_metric.
    - apply demographic_parity_total.
    - apply equalized_odds_total.
    - apply equal_opportunity_total.
    - eexists; reflexivity.
    - apply demographic_parity_total. }
  destruct Hm as [s Hm]. rewrite (bind_ok _ _ _ Hm).
  destruct (compute_group_bias_total m) as [g Hg]. rewrite (bind_ok _ _ _ Hg).
  eexists; split; [reflexivity|exact I].
Qed.

End Totality.

Lemma df_column_of_validated det predictions true_labels df u :
  df_wf df -> fst (validate_inputs det predictions true_labels df) = Ok u ->
  forall a, In a (protected_attributes det) ->
    exists col, fst (df_column df a) = Ok col /\ length col = length predictions.
Proof.
  intros Hwf Hv a Ha. apply validate_ok in Hv as [_ [Hn [Hc _]]].
  specialize (Hc a Ha). unfold df_has_column in Hc. unfold df_column.
  unfold df_wf in Hwf. rewrite Hn. clear Hn.
  induction (df_columns df) as [|[n c] cs IH]; simpl in *; [discriminate|].
  inversion Hwf as [|? ? Hnc Hcs]; subst. simpl in Hnc.
  destruct (String.eqb_spec n a) as [->|Hne].
  - exists c. split; [reflexivity|exact Hnc].
  - apply IH; [exact Hcs|exact Hc].
Qed.


Lemma catch_ok {A} (m : M A) h a : fst m = Ok a -> catch m h = m.
Proof. destruct m as [[a'|e] l]; simpl; intro H; inversion H; reflexivity. Qed.

Lemma detect_body_run det predictions true_labels df probs now u scores :
  fst (validate_inputs det predictions true_labels df) = Ok u ->
  fst (foldM (metric_step det predictions true_labels df probs) (metrics det) ([], [])) = Ok scores ->
  fst (detect_body det predictions true_labels df probs now) =
    Ok (build_report det (fst scores) (snd scores) (length predictions) now).
Proof.
  intros Hv Hs. unfold detect_body.
  rewrite (bind_ok _ _ _ Hv). rewrite (bind_ok _ _ _ Hs). reflexivity.
Qed.


(** ** Demographic parity against its closed form *)

Lemma is_max_snoc m l d d' : is_max m l -> d' == d -> is_max (py_max2 m d) (l ++ [d']).
Proof.
  intros [[x [Hx Ex]] Hf] Ed. unfold py_max2, py_max. simpl.
  rewrite Forall_forall in Hf.
  destruct (Qltb m d) eqn:E.
  - apply Qltb_spec in E. split.
    + exists d'. split; [apply in_or_app; right; left; reflexivity|exact Ed].
    + apply Forall_forall. intros y Hy. apply in_app_or in Hy as [Hy|[<-|[]]].
      * specialize (Hf y Hy). lra.
      * lra.
  - apply Qltb_false in E. split.
    + exists x. split; [apply in_or_app; left; exact Hx|exact Ex].
    + apply Forall_forall. intros y Hy. apply in_app_or in Hy as [Hy|[<-|[]]].
      * apply Hf, Hy.
      * lra.
Qed.

Lemma fold_right_Qmax_is_max x r : is_max (fold_right Qmax x r) (x :: r).
Proof.
  induction r as [|y r [[z [Hz Ez]] Hf]]; simpl.
  - split; [exists x; split; [left; reflexivity|apply Qeq_refl]|].
    constructor; [apply Qle_refl|constructor].
  - simpl in Hf. rewrite Forall_forall in Hf.
    set (f := fold_right Qmax x r) in *.
    destruct (Q.max_spec y f) as [[H1 H2]|[H1 H2]].
    + split.
      * exists z. split; [destruct Hz as [<-|Hz]; [left|right; right]; auto|lra].
      * apply Forall_forall. intros w [Hw|[Hw|Hw]].
        -- rewrite <- Hw. specialize (Hf x (or_introl eq_refl)). lra.
        -- rewrite <- Hw. lra.
        -- specialize (Hf w (or_intror Hw)). lra.
    + split.
      * exists y. split; [right; left; reflexivity|lra].
      * apply Forall_forall. intros w [Hw|[Hw|Hw]].
        -- rewrite <- Hw. specialize (Hf x (or_introl eq_refl)). lra.
        -- rewrite <- Hw. lra.
        -- specialize (Hf w (or_intror Hw)). lra.
Qed.

Lemma fold_right_Qmin_is_min x r : is_min (fold_right Qmin x r) (x :: r).
Proof.
  induction r as [|y r [[z [Hz Ez]] Hf]]; simpl.
  - split; [exists x; split; [left; reflexivity|apply Qeq_refl]|].
    constructor; [apply Qle_refl|constructor].
  - simpl in Hf. rewrite Forall_forall in Hf.
    set (f := fold_right Qmin x r) in *.
    destruct (Q.min_spec y f) as [[H1 H2]|[H1 H2]].
    + split.
      * exists y. split; [right; left; reflexivity|lra].
      * apply Forall_forall. intros w [Hw|[Hw|Hw]].
        -- rewrite <- Hw. specialize (Hf x (or_introl eq_refl)). lra.
        -- rewrite <- Hw. lra.
        -- specialize (Hf w (or_intror Hw)). lra.
    + split.
      * exists z. split; [destruct Hz as [<-|Hz]; [left|right; right]; auto|lra].
      * apply Forall_forall. intros w [Hw|[Hw|Hw]].
        -- rewrite <- Hw. specialize (Hf x (or_introl eq_refl)). lra.
        -- rewrite <- Hw. lra.
        -- specialize (Hf w (or_intror Hw)). lra.
Qed.

Lemma select_group_mask {A} (xs : list A) col g :
  select_masked xs (group_mask col g) =
  map fst (filter (fun pv => String.eqb (snd pv) g) (combine xs col)).
Proof.
  revert col; induction xs as [|x xs IH]; intros [|v col]; simpl; auto.
  destruct (String.eqb v g); simpl; rewrite IH; reflexivity.
Qed.

Lemma count_group_mask col g : count_true (group_mask col g) = spec_members col g.
Proof.
  unfold count_true, group_mask, spec_members.
  induction col as [|v col IH]; simpl; auto.
  destruct (String.eqb v g); simpl; auto.
Qed.

Lemma unique_in col g : In g (unique col) -> In g col.
Proof.
  unfold unique.
  assert (H : forall acc, In g (fold_left (fun acc v => if existsb (String.eqb v) acc then acc else acc ++ [v]) col acc) ->
              In g acc \/ In g col).
  { induction col as [|v col IH]; simpl; intros acc Hin; auto.
    destruct (IH _ Hin) as [H|H]; [|auto].
    destruct (existsb (String.eqb v) acc); [auto|].
    apply in_app_or in H as [H|[<-|[]]]; auto. }
  intro Hin. destruct (H [] Hin) as [[]|H']; exact H'.
Qed.

Lemma spec_members_pos col g : In g col -> Nat.ltb 0 (spec_members col g) = true.
Proof.
  intro Hin. apply Nat.ltb_lt. unfold spec_members.
  induction col as [|v col IH]; simpl in *; [contradiction|].
  destruct Hin as [->|Hin].
  - rewrite String.eqb_refl. simpl. lia.
  - destruct (String.eqb v g); simpl; [lia|auto].
Qed.

Lemma filter_members_unique col :
  filter (fun g => Nat.ltb 0 (spec_members col g)) (unique col) = unique col.
Proof.
  assert (H : forall l, (forall g, In g l -> In g col) ->
                filter (fun g => Nat.ltb 0 (spec_members col g)) l = l).
  { induction l as [|g l IH]; simpl; intro Hl; auto.
    rewrite spec_members_pos by auto. f_equal. auto. }
  apply H, unique_in.
Qed.

Lemma dp_rates_eq predictions col groups acc r :
  fst (foldM (dp_group_step predictions col) groups acc) = Ok r ->
  r = acc ++ map (spec_group_rate predictions col)
                 (filter (fun g => Nat.ltb 0 (spec_members col g)) groups).
Proof.
  revert acc; induction groups as [|g groups IH]; simpl; intros acc Hrun.
  - inversion Hrun; subst. rewrite app_nil_r. reflexivity.
  - apply bind_ok_inv in Hrun as [acc' [H1 H2]].
    unfold dp_group_step in H1. rewrite count_group_mask in H1.
    destruct (Nat.ltb 0 (spec_members col g)).
    + apply bind_ok_inv in H1 as [sel [Hs Hr]].
      unfold select in Hs. destruct (Nat.eqb _ _); inversion Hs; subst.
      inversion Hr; subst. rewrite (IH _ H2).
      unfold spec_group_rate. rewrite select_group_mask, <- app_assoc. reflexivity.
    + inversion H1; subst. apply IH, H2.
Qed.

Lemma df_column_spec df a col : fst (df_column df a) = Ok col -> spec_column df a = col.
Proof.
  unfold df_column, spec_column. destruct (col_lookup (df_columns df) a); simpl;
    intro H; inversion H; reflexivity.
Qed.

Lemma demographic_parity_closed_form det predictions df s :
  fst (demographic_parity det predictions df) = Ok s ->
  s == spec_demographic_parity (protected_attributes det) predictions df.
Proof.
  intro Hrun. unfold spec_demographic_parity.
  set (q := fun a => Nat.leb 2 (length (unique (spec_column df a)))).
  set (disp := fun a => spec_disparity predictions (spec_column df a)).
  assert (Hinv : is_max s (0 :: map disp (filter q ([] ++ protected_attributes det)))).
  { revert Hrun. unfold demographic_parity.
    apply (foldM_ok_prefix (fun done acc => is_max acc (0 :: map disp (filter q done)))).
    - simpl. split; [exists 0; split; [left; reflexivity|apply Qeq_refl]|].
      constructor; [apply Qle_refl|constructor].
    - intros done acc a acc' Hacc _ Hstep.
      unfold dp_attr_step in Hstep. apply bind_ok_inv in Hstep as [col [Hcol H2]].
      pose proof (df_column_spec _ _ _ Hcol) as Hsc.
      rewrite filter_app. simpl.
      unfold q at 2. rewrite Hsc.
      destruct (Nat.ltb (length (unique col)) 2) eqn:E.
      + assert (acc' = acc) by (inversion H2; reflexivity). subst acc'.
        apply Nat.ltb_lt in E. replace (Nat.leb 2 (length (unique col))) with false
          by (symmetry; apply Nat.leb_gt; lia).
        rewrite app_nil_r. exact Hacc.
      + apply Nat.ltb_ge in E. replace (Nat.leb 2 (length (unique col))) with true
          by (symmetry; apply Nat.leb_le; lia).
        apply bind_ok_inv in H2 as [rates [Hr H3]].
        assert (acc' = fold_spread acc rates) by (inversion H3; reflexivity). subst acc'. clear H3.
        apply dp_rates_eq in Hr. rewrite filter_members_unique in Hr. simpl in Hr.
        assert (Hlen : length rates = length (unique col)) by (subst; apply length_map).
        unfold fold_spread. replace (Nat.leb 2 (length rates)) with true
          by (symmetry; apply Nat.leb_le; lia).
        rewrite map_app. simpl. change (0 :: map disp (filter q done) ++ [disp a])
          with ((0 :: map disp (filter q done)) ++ [disp a]).
        apply is_max_snoc; [exact Hacc|].
        unfold disp, spec_disparity. rewrite Hsc.
        assert (Hsr : spec_rates predictions col = rates)
          by (rewrite Hr; unfold spec_rates; rewrite filter_members_unique; reflexivity).
        rewrite Hsr.
        destruct rates as [|x r]; [simpl in Hlen; lia|].
        unfold list_Qmax, list_Qmin.
        pose proof (is_max_unique _ _ _ (fold_right_Qmax_is_max x r) (py_max_is_max x r)).
        pose proof (is_min_unique _ _ _ (fold_right_Qmin_is_min x r) (py_min_is_min x r)).
        lra. }
  simpl in Hinv.
  exact (is_max_unique _ _ _ Hinv (fold_right_Qmax_is_max 0 _)).
Qed.


(** ** Validation *)



Lemma bind_ret_l {A B} (a : A) (f : A -> M B) : bind (ret a) f = f a.
Proof. unfold bind, ret. destruct (f a); reflexivity. Qed.

Lemma check_attributes_cases df attrs :
  (check_attributes df attrs = (Ok tt, []) /\ forall a, In a attrs -> df_has_column df a = true) \/
  (exists a, In a attrs /\ df_has_column df a = false /\
     check_attributes df attrs =
       (Err (ValueError ("Protected attribute '" ++ a ++ "' not found in data")%string), [])).
Proof.
  unfold check_attributes.
  induction attrs as [|a attrs IH].
  - left. split; [reflexivity|intros a []].
  - cbn [foldM]. destruct (df_has_column df a) eqn:E.
    + destruct IH as [[H1 H2]|[b [Hb [Hm H3]]]].
      * left. split.
        -- rewrite bind_ret_l. exact H1.
        -- intros x [<-|Hx]; auto.
      * right. exists b. split; [right; exact Hb|]. split; [exact Hm|].
        rewrite bind_ret_l. exact H3.
    + right. exists a. split; [left; reflexivity|]. split; [exact E|]. reflexivity.
Qed.

Lemma validate_err_detect_bias det predictions true_labels df probs now e :
  validate_inputs det predictions true_labels df = (Err e, []) ->
  detect_bias det predictions true_labels df probs now = (Err e, [LogFailed (model_name det) e]).
Proof.
  intro H. unfold detect_bias, detect_body. unfold bind at 1. rewrite H. reflexivity.
Qed.

Lemma ret_ok_eq {A} (a b : A) : fst (ret a) = Ok b -> b = a.
Proof. intro H. inversion H. reflexivity. Qed.

(** ** The keys of [metric_scores] *)

Lemma dict_set_keys {A} (d : dict A) k v :
  map fst (dict_set d k v) =
  if existsb (String.eqb k) (map fst d) then map fst d else map fst d ++ [k].
Proof.
  induction d as [|[k' v'] d IH]; [reflexivity|]. simpl.
  destruct (String.eqb k k') eqn:E; simpl; [reflexivity|].
  rewrite IH. destruct (existsb (String.eqb k) (map fst d)); reflexivity.
Qed.

Lemma NoDup_snoc {A} (l : list A) x : NoDup l -> ~ In x l -> NoDup (l ++ [x]).
Proof.
  induction 1 as [|a l Ha Hl IH]; simpl; intro Hx.
  - constructor; [intros []|constructor].
  - constructor.
    + intro H. apply in_app_or in H as [H|[H|[]]]; [contradiction|apply Hx; left; symmetry; exact H].
    + apply IH. intro H. apply Hx. right; exact H.
Qed.

Lemma metric_loop_keys det predictions true_labels df probs scores :
  fst (foldM (metric_step det predictions true_labels df probs) (metrics det) ([], [])) = Ok scores ->
  NoDup (map fst (fst scores)) /\
  (forall k, In k (map fst (fst scores)) <-> exists m, In m (metrics det) /\ k = metric_value m).
Proof.
  intro Hrun.
  assert (H : NoDup (map fst (fst scores)) /\
              (forall k, In k (map fst (fst scores)) <->
                         exists m, In m ([] ++ metrics det) /\ k = metric_value m)).
  { revert Hrun.
    apply (foldM_ok_prefix (fun done acc => NoDup (map fst (fst acc)) /\
             (forall k, In k (map fst (fst acc)) <-> exists m, In m done /\ k = metric_value m))).
    - split; [constructor|]. intro k. split; [intros []|intros [m [[] _]]].
    - intros done b m b' [Hnd Hk] _ Hs. unfold metric_step in Hs.
      apply bind_ok_inv in Hs as [s [_ Hs]]. apply bind_ok_inv in Hs as [g [_ Hs]].
      apply ret_ok_eq in Hs. subst b'. simpl. rewrite dict_set_keys.
      match goal with |- context [existsb ?f ?l] => destruct (existsb f l) eqn:Ex end.
      + apply existsb_exists in Ex as [k0 [Hk0 Ek0]]. apply String.eqb_eq in Ek0. subst k0.
        split; [exact Hnd|]. intro k. rewrite Hk. split.
        * intros [m' [Hm' ->]]. exists m'. split; [apply in_or_app; left; exact Hm'|reflexivity].
        * intros [m' [Hm' ->]]. apply in_app_or in Hm' as [Hm'|[<-|[]]];
            [exists m'; auto|apply Hk, Hk0].
      + split.
        * apply NoDup_snoc; [exact Hnd|]. intro Hin.
          assert (Ht : existsb (String.eqb (metric_value m)) (map fst (fst b)) = true)
            by (apply existsb_exists; exists (metric_value m); split; [exact Hin|apply String.eqb_refl]).
          exact (diff_false_true (eq_trans (eq_sym Ex) Ht)).
        * intro k. split.
          -- intro Hin. apply in_app_or in Hin as [Hin|[<-|[]]].
             ++ apply Hk in Hin as [m' [Hm' ->]]. exists m'. split; [apply in_or_app; left|]; auto.
             ++ exists m. split; [apply in_or_app; right; left|]; reflexivity.
          -- intros [m' [Hm' ->]]. apply in_app_or in Hm' as [Hm'|[<-|[]]].
             ++ apply in_or_app. left. apply Hk. exists m'. auto.
             ++ apply in_or_app. right. left. reflexivity. }
  exact H.
Qed.








(** * The claims *)

(** C2: on every batch [detect_bias] accepts, [metric_scores] holds one
    entry per configured metric, keyed by its value, with the score that
    [_compute_bias_metric] computed for it, and no other entry; a skipped
    calibration (no probabilities) is among them with the score 0.
    [overall_bias_score] is the mean of the values of [metric_scores], so of
    all these scores, the skipped ones included; and [bias_detected] holds
    exactly when the overall score is strictly above the threshold. *)
Theorem overall_score_is_mean det predictions true_labels df probs now r :
  fst (detect_bias det predictions true_labels df probs now) = Ok r ->
  (forall m, In m (metrics det) ->
     exists s, fst (compute_bias_metric det m predictions true_labels df probs) = Ok s /\
               dict_get (metric_scores r) (metric_value m) = Some s) /\
  (forall k, In k (map fst (metric_scores r)) -> exists m, In m (metrics det) /\ k = metric_value m) /\
  NoDup (map fst (metric_scores r)) /\
  (probs = None -> In CALIBRATION (metrics det) ->
     dict_get (metric_scores r) (metric_value CALIBRATION) = Some 0) /\
  overall_bias_score r = np_mean (map snd (metric_scores r)) /\
  (bias_detected r = true <-> threshold det < overall_bias_score r).
Proof.
  intro H. apply detect_bias_ok in H as [u [scores [_ [Hs ->]]]].
  destruct (metric_loop_keys _ _ _ _ _ _ Hs) as [Hnd Hk].
  pose proof (metric_loop_lookup _ _ _ _ _ _ Hs) as Hl.
  simpl. split; [|split; [|split; [exact Hnd|split; [|split; [reflexivity|apply Qltb_spec]]]]].
  - intros m Hm. destruct (Hl m Hm) as [s [Hg Hc]]. exists s. split; assumption.
  - intros k Hin. apply Hk. exact Hin.
  - intros -> Hc. destruct (Hl CALIBRATION Hc) as [s [Hg Hcs]].
    simpl in Hcs. inversion Hcs. subst s. exact Hg.
Qed.

Lemma overall_score_is_mean_witness :
  exists r,
    fst (detect_bias (scen_detector default_threshold None) scen_predictions scen_true_labels
           scen_df None "2026-10-15T00:00:00") = Ok r /\
    (forall m, In m (metrics (scen_detector default_threshold None)) ->
       exists s, fst (compute_bias_metric (scen_detector default_threshold None) m scen_predictions
                        scen_true_labels scen_df None) = Ok s /\
                 dict_get (metric_scores r) (metric_value m) = Some s) /\
    (forall k, In k (map fst (metric_scores r)) ->
       exists m, In m (metrics (scen_detector default_threshold None)) /\ k = metric_value m) /\
    NoDup (map fst (metric_scores r)) /\
    (@None (list Q) = None -> In CALIBRATION (metrics (scen_detector default_threshold None)) ->
       dict_get (metric_scores r) (metric_value CALIBRATION) = Some 0) /\
    overall_bias_score r = np_mean (map snd (metric_scores r)) /\
    (bias_detected r = true <-> threshold (scen_detector default_threshold None) < overall_bias_score r).
Proof.
  eexists. split; [reflexivity|].
  apply (overall_score_is_mean (scen_detector default_threshold None) scen_predictions
           scen_true_labels scen_df None "2026-10-15T00:00:00").
  vm_compute. reflexivity.
Defined.

(** C4 (counterexample): without a metric list the detector does not use
    exactly the four metrics demographic parity, equalized odds, equal
    opportunity and calibration: counterfactual fairness is among them. *)
Lemma default_metrics_not_four :
  ~ (forall m, In m (metrics (scen_detector default_threshold None)) <->
               In m [DEMOGRAPHIC_PARITY; EQUALIZED_ODDS; EQUAL_OPPORTUNITY; CALIBRATION]).
Proof.
  intro H. specialize (H COUNTERFACTUAL_FAIRNESS). vm_compute in H.
  destruct H as [H _]. destruct (H (or_intror (or_intror (or_intror (or_intror (or_introl eq_refl))))))
    as [E|[E|[E|[E|[]]]]]; discriminate E.
Qed.

(** C4 (amended): without a metric list the detector uses all five members
    of [BiasMetric]: demographic parity, equalized odds, equal opportunity,
    calibration and counterfactual fairness. *)
Theorem default_metrics_all_five model_name attrs threshold :
  exists det, fst (init model_name attrs threshold None) = Ok det /\
    metrics det = [DEMOGRAPHIC_PARITY; EQUALIZED_ODDS; EQUAL_OPPORTUNITY; CALIBRATION;
                   COUNTERFACTUAL_FAIRNESS].
Proof.
  eexists. split; [apply init_ok | reflexivity].
Qed.

(** C5 (counterexample): the constructor accepts an empty attribute list
    and a negative threshold. *)
Lemma init_accepts_empty_and_negative :
  (exists det, fst (init "model" [] default_threshold None) = Ok det) /\
  (exists det, fst (init "model" ["attr"%string] (-1) None) = Ok det).
Proof.
  split; eexists; reflexivity.
Qed.

(** C5 (amended): the constructor validates none of its arguments: it
    succeeds for every attribute list, including the empty one, and for
    every threshold, including a negative one, and stores them as given. *)
Theorem init_never_fails name attrs thr ms :
  exists det, fst (init name attrs thr ms) = Ok det /\
    model_name det = name /\ protected_attributes det = attrs /\ threshold det = thr.
Proof.
  eexists. split; [apply init_ok | repeat split].
Qed.




(** C9 (counterexample): two calls with the same detector and the same
    batch, made at different clock readings, return different reports. *)
Lemma detect_bias_reads_clock :
  fst (detect_bias (scen_detector default_threshold None) scen_predictions scen_true_labels
         scen_df None "2026-10-15T00:00:00")
  <> fst (detect_bias (scen_detector default_threshold None) scen_predictions scen_true_labels
         scen_df None "2026-10-15T00:00:01").
Proof.
  intro H.
  apply (f_equal (fun res => match res with
                             | Ok r => md_timestamp (metadata r)
                             | Err _ => ""%string
                             end)) in H.
  vm_compute in H. discriminate H.
Qed.

(** C9 (amended): two calls with the same detector and the same inputs
    write the same log and raise the same error or return reports equal in
    every field except [metadata]'s [timestamp], the clock reading of the
    call. *)
Theorem detect_bias_deterministic_but_timestamp det predictions true_labels df probs now1 now2 :
  snd (detect_bias det predictions true_labels df probs now1) =
  snd (detect_bias det predictions true_labels df probs now2) /\
  match fst (detect_bias det predictions true_labels df probs now1),
        fst (detect_bias det predictions true_labels df probs now2) with
  | Ok r1, Ok r2 => r2 = set_timestamp r1 now2 /\ md_timestamp (metadata r1) = now1
  | Err e1, Err e2 => e1 = e2
  | _, _ => False
  end.
Proof.
  unfold detect_bias, detect_body, catch, bind.
  destruct (validate_inputs det predictions true_labels df) as [[u|e] l1]; simpl;
    [|split; reflexivity].
  destruct (foldM (metric_step det predictions true_labels df probs) (metrics det) ([], []))
    as [[sc|e] l2]; simpl; [|split; reflexivity].
  split; [reflexivity|]. split; reflexivity.
Qed.

(** C7: in every report [detect_bias] returns, every value of
    [metric_scores] and of [group_scores] lies in [0, 1]; the disparity
    scores are thus non-negative and the group rates are proportions.
    The prediction probabilities need no bound for this. *)
Theorem report_scores_are_proportions det predictions true_labels df probs now r :
  fst (detect_bias det predictions true_labels df probs now) = Ok r ->
  Forall (fun kv => 0 <= snd kv <= 1) (metric_scores r) /\
  Forall (fun kv => 0 <= snd kv <= 1) (group_scores r).
Proof.
  intro H. apply detect_bias_ok in H as [u [scores [Hv [Hloop ->]]]].
  apply validate_ok in Hv as [_ [_ [_ [Hp Hl]]]].
  apply all_binary_unit in Hp. apply all_binary_unit in Hl.
  destruct (metric_loop_prop det predictions true_labels Hp Hl df probs (metrics det) ([], []) scores)
    as [H1 H2]; try constructor; auto.
Qed.

Lemma report_scores_are_proportions_witness :
  exists r,
    fst (detect_bias (scen_detector default_threshold None) scen_predictions scen_true_labels
           scen_df (Some [9 # 10; 1 # 10; 3 # 10; 7 # 10]) "2026-10-15T00:00:00") = Ok r /\
    Forall (fun kv => 0 <= snd kv <= 1) (metric_scores r) /\
    Forall (fun kv => 0 <= snd kv <= 1) (group_scores r).
Proof.
  eexists. split; [reflexivity|].
  apply (report_scores_are_proportions (scen_detector default_threshold None) scen_predictions
           scen_true_labels scen_df (Some [9 # 10; 1 # 10; 3 # 10; 7 # 10]) "2026-10-15T00:00:00").
  vm_compute. reflexivity.
Defined.

(** C10: whenever [detect_bias] returns a report and counterfactual
    fairness is configured, its score is the demographic parity score
    computed on the same inputs; when demographic parity is configured as
    well, the two entries of [metric_scores] are equal. *)
Theorem counterfactual_equals_demographic_parity det predictions true_labels df probs now r :
  fst (detect_bias det predictions true_labels df probs now) = Ok r ->
  In COUNTERFACTUAL_FAIRNESS (metrics det) ->
  exists s,
    dict_get (metric_scores r) "counterfactual_fairness" = Some s /\
    fst (demographic_parity det predictions df) = Ok s /\
    (In DEMOGRAPHIC_PARITY (metrics det) ->
     dict_get (metric_scores r) "demographic_parity" = Some s).
Proof.
  intros H Hcf. apply detect_bias_ok in H as [u [scores [_ [Hloop ->]]]].
  destruct (metric_loop_lookup _ _ _ _ _ _ Hloop COUNTERFACTUAL_FAIRNESS Hcf) as [s [Hs Hc]].
  exists s. simpl. split; [exact Hs|]. split; [exact Hc|].
  intro Hdp. destruct (metric_loop_lookup _ _ _ _ _ _ Hloop DEMOGRAPHIC_PARITY Hdp) as [s' [Hs' Hd]].
  simpl in Hd, Hc. unfold counterfactual_fairness in Hc. rewrite Hc in Hd. inversion Hd; subst.
  exact Hs'.
Qed.

Lemma counterfactual_equals_demographic_parity_witness :
  exists r s,
    fst (detect_bias (scen_detector default_threshold None) scen_predictions scen_true_labels
           scen_df None "2026-10-15T00:00:00") = Ok r /\
    dict_get (metric_scores r) "counterfactual_fairness" = Some s /\
    fst (demographic_parity (scen_detector default_threshold None) scen_predictions scen_df) = Ok s /\
    dict_get (metric_scores r) "demographic_parity" = Some s.
Proof.
  eexists. 
  assert (Hr : fst (detect_bias (scen_detector default_threshold None) scen_predictions
                      scen_true_labels scen_df None "2026-10-15T00:00:00") = Ok _) by reflexivity.
  destruct (counterfactual_equals_demographic_parity _ _ _ _ _ _ _ Hr) as [s [H1 [H2 H3]]].
  - vm_compute. tauto.
  - exists s. split; [exact Hr|]. split; [exact H1|]. split; [exact H2|].
    apply H3. vm_compute. tauto.
Defined.

(** C8: with the calibration metric configured and no probability array,
    [detect_bias] on a batch that passes validation (and whose DataFrame
    columns all have [len(df)] rows) raises nothing: it returns a report
    whose [metric_scores["calibration"]] is exactly 0.0, that 0.0 is one
    of the values averaged into [overall_bias_score], and the skip is
    logged at level WARNING. *)
Theorem calibration_skipped_without_probabilities det predictions true_labels df now u :
  df_wf df ->
  fst (validate_inputs det predictions true_labels df) = Ok u ->
  In CALIBRATION (metrics det) ->
  exists r,
    fst (detect_bias det predictions true_labels df None now) = Ok r /\
    dict_get (metric_scores r) (metric_value CALIBRATION) = Some 0 /\
    overall_bias_score r = np_mean (map snd (metric_scores r)) /\
    In LogCalibrationSkipped (snd (detect_bias det predictions true_labels df None now)) /\
    log_level_of LogCalibrationSkipped = WARNING.
Proof.
  intros Hwf Hv Hin.
  pose proof (validate_ok _ _ _ _ _ Hv) as [Hlen _].
  destruct (metric_loop_total_no_probs det predictions true_labels df
              (df_column_of_validated det predictions true_labels df u Hwf Hv) (eq_sym Hlen))
    as [scores Hs].
  pose proof (detect_body_run det predictions true_labels df None now u scores Hv Hs) as Hb.
  exists (build_report det (fst scores) (snd scores) (length predictions) now).
  unfold detect_bias. rewrite (catch_ok _ _ _ Hb).
  split; [exact Hb|].
  destruct (metric_loop_lookup _ _ _ _ _ _ Hs CALIBRATION Hin) as [s [Hg Hc]].
  simpl in Hc. inversion Hc; subst.
  split; [exact Hg|]. split; [reflexivity|]. split; [|reflexivity].
  unfold detect_body. apply (bind_log_r _ _ u _ Hv). apply bind_log_l.
  eapply (foldM_log _ CALIBRATION); [|exact Hin|exact Hs].
  intro b. unfold metric_step. apply bind_log_l. simpl. left; reflexivity.
Qed.

Lemma calibration_skipped_without_probabilities_witness :
  exists r,
    fst (detect_bias (scen_detector default_threshold None) scen_predictions scen_true_labels
           scen_df None "2026-10-15T00:00:00") = Ok r /\
    dict_get (metric_scores r) (metric_value CALIBRATION) = Some 0 /\
    overall_bias_score r = np_mean (map snd (metric_scores r)) /\
    In LogCalibrationSkipped (snd (detect_bias (scen_detector default_threshold None) scen_predictions
           scen_true_labels scen_df None "2026-10-15T00:00:00")) /\
    log_level_of LogCalibrationSkipped = WARNING.
Proof.
  apply (calibration_skipped_without_probabilities (scen_detector default_threshold None)
           scen_predictions scen_true_labels scen_df "2026-10-15T00:00:00" tt).
  - repeat constructor.
  - vm_compute. reflexivity.
  - simpl. tauto.
Defined.

(** C1: whenever [detect_bias] returns a report and demographic parity is
    configured, [metric_scores["demographic_parity"]] equals the closed
    form [spec_demographic_parity]: per attribute with at least two
    distinct values, the largest minus the smallest mean prediction over
    the groups with at least one member; attributes with fewer than two
    distinct values skipped; the largest such disparity over the
    attributes (0 when none is left). *)
Theorem demographic_parity_score_spec det predictions true_labels df probs now r :
  fst (detect_bias det predictions true_labels df probs now) = Ok r ->
  In DEMOGRAPHIC_PARITY (metrics det) ->
  exists s,
    dict_get (metric_scores r) (metric_value DEMOGRAPHIC_PARITY) = Some s /\
    s == spec_demographic_parity (protected_attributes det) predictions df.
Proof.
  intros Hr Hin.
  destruct (detect_bias_ok _ _ _ _ _ _ _ Hr) as [u [scores [_ [Hs ->]]]].
  destruct (metric_loop_lookup _ _ _ _ _ _ Hs DEMOGRAPHIC_PARITY Hin) as [s [Hg Hc]].
  exists s. split; [exact Hg|].
  apply demographic_parity_closed_form, Hc.
Qed.

(** The scenario of the spec: predictions [1,1,0,0], one attribute with
    values [a,a,b,b]; the demographic parity score is 1. *)
Lemma demographic_parity_score_spec_witness :
  exists r s,
    fst (detect_bias (scen_detector default_threshold None) scen_predictions scen_true_labels
           scen_df None "2026-10-15T00:00:00") = Ok r /\
    dict_get (metric_scores r) (metric_value DEMOGRAPHIC_PARITY) = Some s /\
    s == spec_demographic_parity (protected_attributes (scen_detector default_threshold None))
           scen_predictions scen_df /\
    s == 1.
Proof.
  destruct (fst (detect_bias (scen_detector default_threshold None) scen_predictions
                   scen_true_labels scen_df None "2026-10-15T00:00:00")) as [r|e] eqn:Hr;
    [|vm_compute in Hr; discriminate].
  assert (Hin : In DEMOGRAPHIC_PARITY (metrics (scen_detector default_threshold None)))
    by (simpl; tauto).
  destruct (demographic_parity_score_spec (scen_detector default_threshold None) scen_predictions
              scen_true_labels scen_df None "2026-10-15T00:00:00" r Hr Hin) as [s [Hg Hs]].
  exists r, s. split; [reflexivity|]. split; [exact Hg|]. split; [exact Hs|].
  assert (E : spec_demographic_parity (protected_attributes (scen_detector default_threshold None))
                scen_predictions scen_df == 1) by (vm_compute; reflexivity).
  lra.
Defined.

(** C3: when a batch breaks one of the validation rules (length of the
    labels, row count of the DataFrame, a missing protected-attribute
    column, a non-binary prediction or label), [detect_bias] raises a
    [ValueError] whose message names a broken rule; it returns no report,
    and its whole log is the one error entry of the [except] clause: no
    metric was computed before the error. *)
Theorem validation_fails_eagerly det predictions true_labels df probs now :
  validation_rule_violated det predictions true_labels df ->
  exists msg,
    detect_bias det predictions true_labels df probs now =
      (Err (ValueError msg), [LogFailed (model_name det) (ValueError msg)]) /\
    names_violated_rule det predictions true_labels df msg.
Proof.
  intro Hv.
  assert (Hval : exists msg, validate_inputs det predictions true_labels df = (Err (ValueError msg), []) /\
                             names_violated_rule det predictions true_labels df msg).
  { unfold validate_inputs, names_violated_rule.
    destruct (Nat.eqb (length predictions) (length true_labels)) eqn:E1; simpl.
    2:{ eexists. split; [reflexivity|]. left. split; [reflexivity|]. apply Nat.eqb_neq, E1. }
    destruct (Nat.eqb (length predictions) (df_nrows df)) eqn:E2; simpl.
    2:{ eexists. split; [reflexivity|]. right; left. split; [reflexivity|]. apply Nat.eqb_neq, E2. }
    destruct (check_attributes_cases df (protected_attributes det)) as [[Hc Hall]|[a [Ha [Hm Hc]]]];
      rewrite Hc.
    - change (Ok tt, @nil log_entry) with (@ret unit tt). rewrite bind_ret_l.
      destruct (all_binary predictions) eqn:E3; simpl.
      2:{ eexists. split; [reflexivity|]. right; right; right; left. split; reflexivity. }
      destruct (all_binary true_labels) eqn:E4; simpl.
      2:{ eexists. split; [reflexivity|]. right; right; right; right. split; reflexivity. }
      exfalso. apply Nat.eqb_eq in E1. apply Nat.eqb_eq in E2.
      destruct Hv as [H|[H|[[a [Ha Hm]]|[H|H]]]]; try congruence.
      rewrite (Hall a Ha) in Hm. discriminate.
    - eexists. split; [reflexivity|]. right; right; left. exists a. auto. }
  destruct Hval as [msg [Hval Hmsg]].
  exists msg. split; [apply validate_err_detect_bias, Hval|exact Hmsg].
Qed.

(** Predictions of length 5 against labels of length 4. *)
Lemma validation_fails_eagerly_witness :
  length [1; 1; 0; 0; 1] <> length scen_true_labels /\
  exists msg,
    detect_bias (scen_detector default_threshold None) [1; 1; 0; 0; 1] scen_true_labels scen_df None
      "2026-10-15T00:00:00" =
      (Err (ValueError msg), [LogFailed (model_name (scen_detector default_threshold None)) (ValueError msg)]) /\
    names_violated_rule (scen_detector default_threshold None) [1; 1; 0; 0; 1] scen_true_labels scen_df msg.
Proof.
  split; [simpl; discriminate|].
  apply (validation_fails_eagerly (scen_detector default_threshold None) [1; 1; 0; 0; 1]
           scen_true_labels scen_df None "2026-10-15T00:00:00").
  left. simpl. discriminate.
Defined.

(** * Further properties of the module *)

(** ** Saving and loading *)


Lemma BiasMetric_of_metric_value m : BiasMetric_of_value (metric_value m) = ret m.
Proof. destruct m; reflexivity. Qed.

Lemma parse_metric_values_from l acc :
  foldM (fun acc v => m <- BiasMetric_of_value v ;; ret (acc ++ [m])) (map metric_value l) acc =
  ret (acc ++ l).
Proof.
  revert acc; induction l as [|m l IH]; intro acc; simpl.
  - rewrite app_nil_r. reflexivity.
  - rewrite BiasMetric_of_metric_value, !bind_ret_l, IH, <- app_assoc. reflexivity.
Qed.


Lemma load_from_save_config det :
  metrics det <> [] ->
  load_from_config (save_config det) = (Ok det, [LogInitialized (model_name det)]).
Proof.
  intro Hne. destruct det as [n a t ms ds]. simpl in Hne.
  unfold load_from_config, parse_metrics. simpl saved_metrics.
  rewrite parse_metric_values_from, bind_ret_l. simpl.
  destruct ms as [|m ms]; [congruence|]. reflexivity.
Qed.

Lemma BiasMetric_eq_dec (m m' : BiasMetric) : {m = m'} + {m <> m'}.
Proof. decide equality. Defined.

Lemma init_detectors_keep m thr l d :
  dict_get d (metric_value m) = Some (get_detector_config thr m) ->
  dict_get (fold_left (fun d m => dict_set d (metric_value m) (get_detector_config thr m)) l d)
           (metric_value m) = Some (get_detector_config thr m).
Proof.
  revert d; induction l as [|m' l IH]; intros d Hd; simpl; [exact Hd|].
  apply IH. destruct (BiasMetric_eq_dec m m') as [<-|Hne].
  - apply dict_get_set_same.
  - rewrite dict_get_set_other; [exact Hd|].
    intro E. apply Hne. apply metric_value_inj. exact E.
Qed.

Lemma init_detectors_origin thr l d k c :
  dict_get (fold_left (fun d m => dict_set d (metric_value m) (get_detector_config thr m)) l d) k = Some c ->
  dict_get d k = Some c \/ exists m, In m l /\ k = metric_value m /\ c = get_detector_config thr m.
Proof.
  revert d; induction l as [|m l IH]; intros d H; simpl in H; [left; exact H|].
  destruct (IH _ H) as [H1|[m' [Hm' Hk]]].
  - destruct (String.eqb_spec k (metric_value m)) as [->|Hne].
    + rewrite dict_get_set_same in H1. inversion H1; subst.
      right. exists m. split; [left; reflexivity|auto].
    + rewrite dict_get_set_other in H1 by exact Hne. left. exact H1.
  - right. exists m'. split; [right; exact Hm'|exact Hk].
Qed.

(** A detector with at least one metric, saved with [save_detector] and
    loaded back from the same path, is the same detector; the load logs the
    constructor's line and its own. *)
Theorem load_after_save_roundtrip store det filepath :
  metrics det <> [] ->
  load_detector (fst (save_detector store det filepath)) filepath =
    Unpickled (Ok det) [CoreLog (LogInitialized (model_name det)); LogLoaded filepath].
Proof.
  intro Hne. unfold load_detector, save_detector. cbn [fst].
  rewrite dict_get_set_same, (load_from_save_config det Hne). reflexivity.
Qed.

Lemma load_after_save_roundtrip_witness :
  metrics (scen_detector default_threshold None) <> [] /\
  load_detector (fst (save_detector [] (scen_detector default_threshold None) "detector.pkl"))
    "detector.pkl" =
    Unpickled (Ok (scen_detector default_threshold None))
      [CoreLog (LogInitialized (model_name (scen_detector default_threshold None)));
       LogLoaded "detector.pkl"].
Proof.
  split; [vm_compute; discriminate|].
  apply load_after_save_roundtrip. vm_compute. discriminate.
Defined.



(** A file whose metric list is empty loads as a detector with all five
    metrics ([metrics or list(BiasMetric)]), the other fields as stored. *)
Theorem load_empty_metric_list_uses_all store filepath config :
  dict_get store filepath = Some config ->
  saved_metrics config = [] ->
  load_detector store filepath =
    Unpickled (Ok {| model_name := saved_model_name config;
                     protected_attributes := saved_protected_attributes config;
                     threshold := saved_threshold config;
                     metrics := all_BiasMetric;
                     detectors := saved_detectors config |})
      [CoreLog (LogInitialized (saved_model_name config)); LogLoaded filepath].
Proof.
  intros Hs He. unfold load_detector. rewrite Hs.
  unfold load_from_config, parse_metrics. rewrite He. reflexivity.
Qed.

Lemma load_empty_metric_list_uses_all_witness :
  load_detector [("detector.pkl"%string, empty_metrics_config)] "detector.pkl" =
    Unpickled (Ok {| model_name := "model";
                     protected_attributes := ["attr"%string];
                     threshold := default_threshold;
                     metrics := all_BiasMetric;
                     detectors := [] |})
      [CoreLog (LogInitialized "model"); LogLoaded "detector.pkl"].
Proof.
  apply (load_empty_metric_list_uses_all [("detector.pkl"%string, empty_metrics_config)]
           "detector.pkl" empty_metrics_config); reflexivity.
Defined.

(** After construction, [detectors] maps the value of each configured
    metric to that metric's configuration with the detector's threshold,
    and holds no other key. *)
Theorem init_detectors_lookup name attrs thr ms det :
  fst (init name attrs thr ms) = Ok det ->
  (forall m, In m (metrics det) ->
     dict_get (detectors det) (metric_value m) = Some (get_detector_config (threshold det) m)) /\
  (forall k c, dict_get (detectors det) k = Some c ->
     exists m, In m (metrics det) /\ k = metric_value m /\ c = get_detector_config (threshold det) m).
Proof.
  intro H. rewrite init_ok in H. inversion H; subst; clear H. cbn [metrics detectors threshold].
  unfold initialize_detectors. split.
  - intros m Hm. apply in_split in Hm as [l1 [l2 Hl]]. rewrite Hl, fold_left_app. simpl.
    apply init_detectors_keep, dict_get_set_same.
  - intros k c Hk. destruct (init_detectors_origin _ _ _ _ _ Hk) as [H0|H0];
      [discriminate H0|exact H0].
Qed.

Lemma init_detectors_lookup_witness :
  exists det, fst (init "model" ["attr"%string] default_threshold None) = Ok det /\
  (forall m, In m (metrics det) ->
     dict_get (detectors det) (metric_value m) = Some (get_detector_config (threshold det) m)) /\
  (forall k c, dict_get (detectors det) k = Some c ->
     exists m, In m (metrics det) /\ k = metric_value m /\ c = get_detector_config (threshold det) m).
Proof.
  eexists. split; [reflexivity|].
  apply (init_detectors_lookup "model" ["attr"%string] default_threshold None). reflexivity.
Defined.

(** ** Group-level scores *)

Lemma dict_set_in {A} (d : dict A) k0 v0 k v :
  In (k, v) (dict_set d k0 v0) -> (k = k0 /\ v = v0) \/ In (k, v) d.
Proof.
  induction d as [|[k' v'] d IH]; simpl.
  - intros [E|[]]. inversion E; subst. left; auto.
  - destruct (String.eqb_spec k0 k') as [->|Hne]; simpl.
    + intros [E|H]; [inversion E; subst; left; auto|right; right; exact H].
    + intros [E|H]; [right; left; exact E|].
      destruct (IH H) as [H'|H']; [left; exact H'|right; right; exact H'].
Qed.

(** The group scores of calibration and of counterfactual fairness are
    all 0: [_compute_group_bias] has a score only for demographic parity
    and the two true-positive-rate metrics. *)
Theorem group_bias_zero_for_other_metrics det m predictions true_labels df g :
  m = CALIBRATION \/ m = COUNTERFACTUAL_FAIRNESS ->
  fst (compute_group_bias det m predictions true_labels df) = Ok g ->
  forall k v, In (k, v) g -> v = 0.
Proof.
  intros Hm H. revert H. unfold compute_group_bias.
  apply (foldM_ok_inv (fun gs => forall k v, In (k, v) gs -> v = 0)); [intros k v []|].
  intros gs a gs' Hgs _ Hs. unfold cgb_attr_step in Hs.
  apply bind_ok_inv in Hs as [col [_ Hs]]. revert Hs.
  apply (foldM_ok_inv (fun gs => forall k v, In (k, v) gs -> v = 0)); [exact Hgs|].
  intros gs1 grp gs2 H1 _ Hs. unfold cgb_group_step in Hs.
  destruct (Nat.ltb 0 _); [|apply ret_ok_eq in Hs; subst gs2; exact H1].
  apply bind_ok_inv in Hs as [sc [Hsc Hr]]. apply ret_ok_eq in Hr. subst gs2.
  assert (sc = 0) by (destruct Hm as [->| ->]; apply ret_ok_eq in Hsc; exact Hsc). subst sc.
  intros k v Hkv. destruct (dict_set_in _ _ _ _ _ Hkv) as [[_ ->]|H']; [reflexivity|].
  exact (H1 k v H').
Qed.

Lemma group_bias_zero_for_other_metrics_witness :
  exists g,
    fst (compute_group_bias (scen_detector default_threshold None) CALIBRATION scen_predictions
           scen_true_labels scen_df) = Ok g /\
    g <> [] /\ forall k v, In (k, v) g -> v = 0.
Proof.
  eexists. split; [reflexivity|]. split; [discriminate|].
  apply (group_bias_zero_for_other_metrics (scen_detector default_threshold None) CALIBRATION
           scen_predictions scen_true_labels scen_df); [left; reflexivity|reflexivity].
Defined.

(** Every demographic-parity group score is keyed
    [f"{attr}_{group}_demographic_parity"] for a configured attribute and a
    value [group] of its column with at least one row, and is the mean
    prediction over the rows whose value is [group]. *)
Theorem dp_group_scores_are_group_rates det predictions true_labels df g :
  fst (compute_group_bias det DEMOGRAPHIC_PARITY predictions true_labels df) = Ok g ->
  forall k v, In (k, v) g ->
    exists attr col grp,
      In attr (protected_attributes det) /\ fst (df_column df attr) = Ok col /\
      In grp (unique col) /\ (0 < spec_members col grp)%nat /\
      k = (attr ++ "_" ++ grp ++ "_demographic_parity")%string /\
      v = spec_group_rate predictions col grp.
Proof.
  set (P := fun gs : dict Q => forall k v, In (k, v) gs ->
    exists attr col grp,
      In attr (protected_attributes det) /\ fst (df_column df attr) = Ok col /\
      In grp (unique col) /\ (0 < spec_members col grp)%nat /\
      k = (attr ++ "_" ++ grp ++ "_demographic_parity")%string /\
      v = spec_group_rate predictions col grp).
  intro H. change (P g). revert H. unfold compute_group_bias.
  apply (foldM_ok_inv P); [intros k v []|].
  intros gs a gs' Hgs Ha Hs. unfold cgb_attr_step in Hs.
  apply bind_ok_inv in Hs as [col [Hcol Hs]]. revert Hs.
  apply (foldM_ok_inv P); [exact Hgs|].
  intros gs1 grp gs2 H1 Hgrp Hs. unfold cgb_group_step in Hs.
  rewrite count_group_mask in Hs.
  destruct (Nat.ltb 0 (spec_members col grp)) eqn:Ec; [|apply ret_ok_eq in Hs; subst gs2; exact H1].
  apply bind_ok_inv in Hs as [sc [Hsc Hr]]. apply ret_ok_eq in Hr. subst gs2.
  simpl in Hsc. apply bind_ok_inv in Hsc as [sel [Hsel Hsc]].
  apply select_ok in Hsel as [-> _]. apply ret_ok_eq in Hsc. subst sc.
  intros k v Hkv. destruct (dict_set_in _ _ _ _ _ Hkv) as [[-> ->]|H']; [|exact (H1 k v H')].
  exists a, col, grp. split; [exact Ha|]. split; [exact Hcol|]. split; [exact Hgrp|].
  split; [apply Nat.ltb_lt, Ec|]. split; [reflexivity|].
  unfold spec_group_rate. rewrite select_group_mask. reflexivity.
Qed.

Lemma dp_group_scores_are_group_rates_witness :
  exists g,
    fst (compute_group_bias (scen_detector default_threshold None) DEMOGRAPHIC_PARITY
           scen_predictions scen_true_labels scen_df) = Ok g /\
    forall k v, In (k, v) g ->
      exists attr col grp,
        In attr (protected_attributes (scen_detector default_threshold None)) /\
        fst (df_column scen_df attr) = Ok col /\
        In grp (unique col) /\ (0 < spec_members col grp)%nat /\
        k = (attr ++ "_" ++ grp ++ "_demographic_parity")%string /\
        v = spec_group_rate scen_predictions col grp.
Proof.
  eexists. split; [reflexivity|].
  apply (dp_group_scores_are_group_rates (scen_detector default_threshold None) scen_predictions
           scen_true_labels scen_df). reflexivity.
Defined.

(** ** Attributes with a single value *)

Section SingleValued.

Variable det : MLModelBiasDetector.
Variables predictions true_labels : list Q.
Variable df : DataFrame.
Hypothesis Hsingle : forall a col, In a (protected_attributes det) ->
  fst (df_column df a) = Ok col -> (length (unique col) < 2)%nat.

Ltac skip_attr :=
  let acc := fresh "acc" in let a := fresh "a" in let acc' := fresh "acc'" in
  let Hacc := fresh "Hacc" in let Ha := fresh "Ha" in let Hs := fresh "Hs" in
  let col := fresh "col" in let Hcol := fresh "Hcol" in
  intros acc a acc' Hacc Ha Hs;
  unfold dp_attr_step, eo_attr_step, eopp_attr_step, cal_attr_step in Hs;
  apply bind_ok_inv in Hs as [col [Hcol Hs]]; cbv zeta in Hs;
  rewrite (proj2 (Nat.ltb_lt _ _) (Hsingle a col Ha Hcol)) in Hs;
  apply ret_ok_eq in Hs; subst acc'; exact Hacc.

Lemma single_valued_metric_zero m probs s :
  fst (compute_bias_metric det m predictions true_labels df probs) = Ok s -> s = 0.
Proof.
  destruct m; simpl compute_bias_metric;
    [| | | destruct probs as [probs|]; [|intro H; inversion H; reflexivity] |];
    apply (foldM_ok_inv (fun x => x = 0)); try reflexivity; skip_attr.
Qed.

Lemma single_valued_loop_zero probs l acc scores :
  (forall k v, In (k, v) (fst acc) -> v = 0) ->
  fst (foldM (metric_step det predictions true_labels df probs) l acc) = Ok scores ->
  forall k v, In (k, v) (fst scores) -> v = 0.
Proof.
  intro H0. apply (foldM_ok_inv (fun acc => forall k v, In (k, v) (fst acc) -> v = 0)); [exact H0|].
  intros b m b' Hb _ Hs. unfold metric_step in Hs.
  apply bind_ok_inv in Hs as [s [Hs Hr]]. apply single_valued_metric_zero in Hs. subst s.
  apply bind_ok_inv in Hr as [gs [_ Hr]]. apply ret_ok_eq in Hr. subst b'. simpl.
  intros k v Hkv. destruct (dict_set_in _ _ _ _ _ Hkv) as [[_ ->]|H']; [reflexivity|].
  exact (Hb k v H').
Qed.

End SingleValued.

Lemma Qsum_zeros xs : (forall x, In x xs -> x = 0) -> Qsum xs == 0.
Proof.
  induction xs as [|x xs IH]; simpl; intro H; [reflexivity|].
  rewrite (H x (or_introl eq_refl)), IH by auto. reflexivity.
Qed.

Lemma Qltb_false_of_le a b : b <= a -> Qltb a b = false.
Proof. intro H. unfold Qltb. apply negb_false_iff, Qle_bool_iff, H. Qed.

(** When no configured attribute has two distinct values, every metric is
    skipped for every attribute: all metric scores are 0, so is the overall
    score, and with a threshold of at least 0 no bias is detected and the
    report carries only the "no significant bias" notice. *)
Theorem single_valued_attributes_no_bias det predictions true_labels df probs now r :
  (forall a col, In a (protected_attributes det) ->
     fst (df_column df a) = Ok col -> (length (unique col) < 2)%nat) ->
  fst (detect_bias det predictions true_labels df probs now) = Ok r ->
  (forall k v, In (k, v) (metric_scores r) -> v = 0) /\
  overall_bias_score r == 0 /\
  (0 <= threshold det -> bias_detected r = false /\ recommendations r = [no_bias_notice]).
Proof.
  intros Hsingle Hr.
  destruct (detect_bias_ok _ _ _ _ _ _ _ Hr) as [u [scores [_ [Hs ->]]]].
  pose proof (single_valued_loop_zero det predictions true_labels df Hsingle probs (metrics det)
                ([], []) scores (fun k v H => match H with end) Hs) as Hz.
  assert (Hov : np_mean (map snd (fst scores)) == 0).
  { unfold np_mean. rewrite Qsum_zeros.
    - apply Qmult_0_l.
    - intros x Hx. apply in_map_iff in Hx as [[k v] [<- Hkv]]. exact (Hz k v Hkv). }
  split; [exact Hz|]. split; [exact Hov|].
  intro Ht. simpl. rewrite Qltb_false_of_le by lra. split; reflexivity.
Qed.

Lemma single_valued_attributes_no_bias_witness :
  exists r,
    fst (detect_bias (scen_detector default_threshold None) scen_predictions scen_true_labels
           {| df_nrows := 4; df_columns := [("attr", ["a"; "a"; "a"; "a"])]%string |}
           None "2026-10-15T00:00:00") = Ok r /\
    (forall k v, In (k, v) (metric_scores r) -> v = 0) /\
    overall_bias_score r == 0 /\
    (0 <= threshold (scen_detector default_threshold None) ->
       bias_detected r = false /\ recommendations r = [no_bias_notice]).
Proof.
  eexists. split; [reflexivity|].
  apply (single_valued_attributes_no_bias (scen_detector default_threshold None) scen_predictions
           scen_true_labels {| df_nrows := 4; df_columns := [("attr", ["a"; "a"; "a"; "a"])]%string |}
           None "2026-10-15T00:00:00").
  - intros a col [<-|[]] Hcol. vm_compute in Hcol. inversion Hcol; subst. vm_compute. reflexivity.
  - reflexivity.
Defined.

(** ** Probabilities of exactly 1 *)

Lemma bins_le_1 j : nth j bins 0 <= 1.
Proof.
  destruct (Nat.lt_ge_cases j 11) as [Hj|Hj].
  - do 11 (destruct j as [|j]; [apply Qle_bool_iff; vm_compute; reflexivity|]). lia.
  - rewrite nth_overflow by (unfold bins; rewrite length_map, length_seq; exact Hj).
    apply Qle_bool_iff. reflexivity.
Qed.

Lemma bin_mask_of_ones lo hi ps :
  hi <= 1 -> Forall (fun p => p == 1) ps ->
  count_true (map (fun p => Qle_bool lo p && Qltb p hi) ps) = 0%nat.
Proof.
  intros Hhi H. induction H as [|p ps Hp _ IH]; [reflexivity|].
  unfold count_true in *. simpl.
  rewrite (Qltb_false_of_le p hi) by lra. rewrite andb_false_r. exact IH.
Qed.

(** A probability of exactly 1.0 lies in none of the ten bins
    [[bins[i], bins[i+1])], the last of which excludes 1: when every
    probability is 1.0, no group has a calibration error, no attribute is
    scored, and the calibration score is 0. *)
Theorem calibration_ignores_probability_one det prediction_probabilities true_labels df s :
  Forall (fun p => p == 1) prediction_probabilities ->
  fst (calibration det prediction_probabilities true_labels df) = Ok s ->
  s = 0.
Proof.
  intros Hones. unfold calibration.
  apply (foldM_ok_inv (fun x => x = 0)); [reflexivity|].
  intros acc a acc' Hacc _ Hs. unfold cal_attr_step in Hs.
  apply bind_ok_inv in Hs as [col [_ Hs]]. cbv zeta in Hs.
  destruct (Nat.ltb _ 2); [apply ret_ok_eq in Hs; subst acc'; exact Hacc|].
  apply bind_ok_inv in Hs as [gcs [Hg Hs]]. apply ret_ok_eq in Hs. subst acc'.
  assert (Hgcs : gcs = []).
  { revert Hg. apply (foldM_ok_inv (fun l => l = [])); [reflexivity|].
    intros l grp l' Hl _ Hst. unfold cal_group_step in Hst.
    destruct (Nat.ltb 0 _); [|apply ret_ok_eq in Hst; subst l'; exact Hl].
    apply bind_ok_inv in Hst as [gp [Hgp Hst]]. apply select_ok in Hgp as [Hgp _].
    apply bind_ok_inv in Hst as [gl [_ Hst]].
    apply bind_ok_inv in Hst as [errs [Herrs Hst]].
    assert (Herrs' : errs = []).
    { revert Herrs. apply (foldM_ok_inv (fun l => l = [])); [reflexivity|].
      intros e i e' He _ Hb. unfold cal_bin_step in Hb. cbv zeta in Hb.
      rewrite bin_mask_of_ones in Hb.
      - apply ret_ok_eq in Hb. subst e'. exact He.
      - apply bins_le_1.
      - subst gp. apply select_masked_Forall, Hones. }
    subst errs. apply ret_ok_eq in Hst. subst l'. exact Hl. }
  subst gcs. unfold fold_spread. simpl. exact Hacc.
Qed.

Lemma calibration_ignores_probability_one_witness :
  exists s,
    fst (calibration (scen_detector default_threshold None) [1; 1; 1; 1] scen_true_labels scen_df)
      = Ok s /\ s = 0.
Proof.
  eexists. split; [reflexivity|].
  apply (calibration_ignores_probability_one (scen_detector default_threshold None) [1; 1; 1; 1]
           scen_true_labels scen_df).
  - repeat constructor.
  - reflexivity.
Defined.

(** ** Equal opportunity against equalized odds *)

Lemma eo_eopp_group_step predictions true_labels col acc acc2 g b b2 :
  fst (eo_group_step predictions true_labels col acc g) = Ok b ->
  fst (eopp_group_step predictions true_labels col acc2 g) = Ok b2 ->
  fst acc = acc2 -> fst b = b2.
Proof.
  intros H1 H2 E. unfold eo_group_step in H1. unfold eopp_group_step in H2.
  inv_M; try congruence; reflexivity.
Qed.

Lemma eo_eopp_groups predictions true_labels col groups acc acc2 r r2 :
  fst (foldM (eo_group_step predictions true_labels col) groups acc) = Ok r ->
  fst (foldM (eopp_group_step predictions true_labels col) groups acc2) = Ok r2 ->
  fst acc = acc2 -> fst r = r2.
Proof.
  revert acc acc2; induction groups as [|g groups IH]; simpl; intros acc acc2 H1 H2 E.
  - apply ret_ok_eq in H1. apply ret_ok_eq in H2. subst. reflexivity.
  - apply bind_ok_inv in H1 as [b [Hb H1]]. apply bind_ok_inv in H2 as [b2 [Hb2 H2]].
    exact (IH b b2 H1 H2 (eo_eopp_group_step _ _ _ _ _ _ _ _ Hb Hb2 E)).
Qed.

Lemma py_max2_ge a b : a <= py_max2 a b.
Proof.
  unfold py_max2, py_max. simpl. destruct (Qltb a b) eqn:E.
  - apply Qltb_spec in E. lra.
  - apply Qle_refl.
Qed.

Lemma py_max2_mono a a' b : a <= a' -> py_max2 a b <= py_max2 a' b.
Proof.
  intro H. unfold py_max2, py_max. simpl.
  destruct (Qltb a b) eqn:E1; destruct (Qltb a' b) eqn:E2;
    try apply Qltb_spec in E1; try apply Qltb_spec in E2;
    try apply Qltb_false in E1; try apply Qltb_false in E2; lra.
Qed.

Lemma fold_spread_ge a xs : a <= fold_spread a xs.
Proof. unfold fold_spread. destruct (Nat.leb 2 _); [apply py_max2_ge|apply Qle_refl]. Qed.

Lemma fold_spread_mono a a' xs : a <= a' -> fold_spread a xs <= fold_spread a' xs.
Proof. intro H. unfold fold_spread. destruct (Nat.leb 2 _); [apply py_max2_mono, H|exact H]. Qed.

Lemma eopp_le_eo_attrs predictions true_labels df l acc1 acc2 s1 s2 :
  acc2 <= acc1 ->
  fst (foldM (eo_attr_step predictions true_labels df) l acc1) = Ok s1 ->
  fst (foldM (eopp_attr_step predictions true_labels df) l acc2) = Ok s2 ->
  s2 <= s1.
Proof.
  revert acc1 acc2; induction l as [|a l IH]; simpl; intros acc1 acc2 Hle H1 H2.
  - apply ret_ok_eq in H1. apply ret_ok_eq in H2. subst. exact Hle.
  - apply bind_ok_inv in H1 as [b1 [Hb1 H1]]. apply bind_ok_inv in H2 as [b2 [Hb2 H2]].
    apply (IH b1 b2); [|exact H1|exact H2].
    unfold eo_attr_step in Hb1. unfold eopp_attr_step in Hb2.
    apply bind_ok_inv in Hb1 as [col [Hc1 Hb1]]. apply bind_ok_inv in Hb2 as [col' [Hc2 Hb2]].
    rewrite Hc1 in Hc2. injection Hc2 as <-. cbv zeta in Hb1, Hb2.
    destruct (Nat.ltb _ 2).
    + apply ret_ok_eq in Hb1. apply ret_ok_eq in Hb2. subst. exact Hle.
    + apply bind_ok_inv in Hb1 as [sc [Hsc Hb1]]. apply bind_ok_inv in Hb2 as [tprs [Ht Hb2]].
      apply ret_ok_eq in Hb1. apply ret_ok_eq in Hb2. subst b1 b2.
      rewrite <- (eo_eopp_groups _ _ _ _ _ _ _ _ Hsc Ht eq_refl).
      eapply Qle_trans; [apply fold_spread_mono, Hle|apply fold_spread_ge].
Qed.

(** In every report with both metrics configured, the equalized-odds score
    is at least the equal-opportunity score: both take the spread of the
    same true-positive rates, equalized odds also that of the
    false-positive rates. *)
Theorem equal_opportunity_le_equalized_odds det predictions true_labels df probs now r :
  fst (detect_bias det predictions true_labels df probs now) = Ok r ->
  In EQUALIZED_ODDS (metrics det) -> In EQUAL_OPPORTUNITY (metrics det) ->
  exists s1 s2,
    dict_get (metric_scores r) (metric_value EQUALIZED_ODDS) = Some s1 /\
    dict_get (metric_scores r) (metric_value EQUAL_OPPORTUNITY) = Some s2 /\
    s2 <= s1.
Proof.
  intros Hr H1 H2.
  destruct (detect_bias_ok _ _ _ _ _ _ _ Hr) as [u [scores [_ [Hs ->]]]].
  destruct (metric_loop_lookup _ _ _ _ _ _ Hs EQUALIZED_ODDS H1) as [s1 [Hg1 Hc1]].
  destruct (metric_loop_lookup _ _ _ _ _ _ Hs EQUAL_OPPORTUNITY H2) as [s2 [Hg2 Hc2]].
  exists s1, s2. split; [exact Hg1|]. split; [exact Hg2|].
  exact (eopp_le_eo_attrs _ _ _ _ 0 0 s1 s2 (Qle_refl 0) Hc1 Hc2).
Qed.

Lemma equal_opportunity_le_equalized_odds_witness :
  exists r,
    fst (detect_bias (scen_detector default_threshold None) scen_predictions scen_true_labels
           scen_df None "2026-10-15T00:00:00") = Ok r /\
    exists s1 s2,
      dict_get (metric_scores r) (metric_value EQUALIZED_ODDS) = Some s1 /\
      dict_get (metric_scores r) (metric_value EQUAL_OPPORTUNITY) = Some s2 /\
      s2 <= s1.
Proof.
  eexists. split; [reflexivity|].
  apply (equal_opportunity_le_equalized_odds (scen_detector default_threshold None)
           scen_predictions scen_true_labels scen_df None "2026-10-15T00:00:00");
    [reflexivity|simpl; tauto|simpl; tauto].
Defined.

(** ** A probability array of the wrong length *)

Lemma bind_err {A B} (m : M A) (f : A -> M B) e : fst m = Err e -> fst (bind m f) = Err e.
Proof. unfold bind. destruct m as [[a|e'] l]; simpl; intro H; inversion H; reflexivity. Qed.

Lemma foldM_first_err {A B} (f : B -> A -> M B) (P : A -> bool) e l b :
  (exists a, In a l /\ P a = true) ->
  (forall b a, In a l -> P a = false -> exists b', fst (f b a) = Ok b') ->
  (forall b a, In a l -> P a = true -> fst (f b a) = Err e) ->
  fst (foldM f l b) = Err e.
Proof.
  revert b; induction l as [|a l IH]; intros b [x [Hx Px]] Hok Herr; [destruct Hx|].
  simpl. destruct (P a) eqn:Pa.
  - apply bind_err, Herr; [left; reflexivity|exact Pa].
  - destruct (Hok b a (or_introl eq_refl) Pa) as [b' Hb'].
    rewrite (bind_ok _ _ _ Hb'). apply IH.
    + destruct Hx as [<-|Hx]; [congruence|exists x; auto].
    + intros b0 a0 Ha0. apply Hok. right; exact Ha0.
    + intros b0 a0 Ha0. apply Herr. right; exact Ha0.
Qed.

Lemma calibration_length_mismatch det (predictions prediction_probabilities true_labels : list Q) df :
  (forall a, In a (protected_attributes det) ->
     exists col, fst (df_column df a) = Ok col /\ length col = length predictions) ->
  (exists a, In a (protected_attributes det) /\
     Nat.leb 2 (length (unique (spec_column df a))) = true) ->
  length prediction_probabilities <> length predictions ->
  fst (calibration det prediction_probabilities true_labels df) =
    Err (IndexError (length prediction_probabilities) (length predictions)).
Proof.
  intros Hcols Hex Hne. unfold calibration.
  apply (foldM_first_err _ (fun a => Nat.leb 2 (length (unique (spec_column df a))))); [exact Hex| |].
  - intros b a Ha Pa. destruct (Hcols a Ha) as [col [Hcol _]].
    rewrite (df_column_spec _ _ _ Hcol) in Pa.
    exists b. unfold cal_attr_step. rewrite (bind_ok _ _ _ Hcol). cbv zeta.
    replace (Nat.ltb (length (unique col)) 2) with true; [reflexivity|].
    symmetry. apply Nat.ltb_lt. apply Nat.leb_gt in Pa. exact Pa.
  - intros b a Ha Pa. destruct (Hcols a Ha) as [col [Hcol Hl]].
    rewrite (df_column_spec _ _ _ Hcol) in Pa.
    unfold cal_attr_step. rewrite (bind_ok _ _ _ Hcol). cbv zeta.
    replace (Nat.ltb (length (unique col)) 2) with false
      by (symmetry; apply Nat.ltb_ge, Nat.leb_le, Pa).
    apply bind_err.
    destruct (unique col) as [|g gs] eqn:Eu; [simpl in Pa; discriminate|].
    simpl. apply bind_err. unfold cal_group_step.
    rewrite count_group_mask, spec_members_pos
      by (apply unique_in; rewrite Eu; left; reflexivity).
    unfold select. rewrite group_mask_length, Hl.
    destruct (Nat.eqb_spec (length prediction_probabilities) (length predictions)) as [E|_];
      [contradiction|reflexivity].
Qed.

(** A probability array whose length differs from the batch's makes
    [detect_bias] raise NumPy's [IndexError] as soon as calibration is
    reached on an attribute with at least two values, on a batch that
    passes validation. *)
Theorem probabilities_length_mismatch_raises det predictions true_labels df probs now u :
  df_wf df ->
  fst (validate_inputs det predictions true_labels df) = Ok u ->
  In CALIBRATION (metrics det) ->
  (exists a col, In a (protected_attributes det) /\ fst (df_column df a) = Ok col /\
     (2 <= length (unique col))%nat) ->
  length probs <> length predictions ->
  fst (detect_bias det predictions true_labels df (Some probs) now) =
    Err (IndexError (length probs) (length predictions)).
Proof.
  intros Hwf Hv Hin [a [col [Ha [Hcol H2]]]] Hne.
  pose proof (validate_ok _ _ _ _ _ Hv) as [Hlen _].
  pose proof (df_column_of_validated _ _ _ _ _ Hwf Hv) as Hcols.
  assert (Hloop : fst (foldM (metric_step det predictions true_labels df (Some probs)) (metrics det) ([], []))
                  = Err (IndexError (length probs) (length predictions))).
  { apply (foldM_first_err _ (fun m => match m with CALIBRATION => true | _ => false end)).
    - exists CALIBRATION. auto.
    - intros b m _ Pm. unfold metric_step.
      assert (Hm : exists s, fst (compute_bias_metric det m predictions true_labels df (Some probs)) = Ok s).
      { destruct m; simpl compute_bias_metric; try discriminate Pm.
        - apply demographic_parity_total, Hcols.
        - apply equalized_odds_total; [exact Hcols|symmetry; exact Hlen].
        - apply equal_opportunity_total; [exact Hcols|symmetry; exact Hlen].
        - apply demographic_parity_total, Hcols. }
      destruct Hm as [s Hm]. rewrite (bind_ok _ _ _ Hm).
      destruct (compute_group_bias_total det predictions true_labels df Hcols (eq_sym Hlen) m) as [g Hg].
      rewrite (bind_ok _ _ _ Hg). eexists; reflexivity.
    - intros b m _ Pm. destruct m; try discriminate Pm.
      unfold metric_step. apply bind_err. simpl compute_bias_metric.
      apply calibration_length_mismatch; [exact Hcols| |exact Hne].
      exists a. split; [exact Ha|]. rewrite (df_column_spec _ _ _ Hcol). apply Nat.leb_le, H2. }
  unfold detect_bias, detect_body, catch.
  destruct (bind (validate_inputs det predictions true_labels df) _) as [r l] eqn:Eb.
  assert (Er : r = Err (IndexError (length probs) (length predictions))).
  { change r with (fst (r, l)). rewrite <- Eb. rewrite (bind_ok _ _ _ Hv). apply bind_err, Hloop. }
  subst r. unfold bind, log, raise. reflexivity.
Qed.

Lemma probabilities_length_mismatch_raises_witness :
  fst (detect_bias (scen_detector default_threshold None) scen_predictions scen_true_labels scen_df
         (Some [1#2; 1#2; 1#2]) "2026-10-15T00:00:00") = Err (IndexError 3 4).
Proof.
  apply (probabilities_length_mismatch_raises (scen_detector default_threshold None) scen_predictions
           scen_true_labels scen_df [1#2; 1#2; 1#2] "2026-10-15T00:00:00" tt).
  - repeat constructor.
  - vm_compute. reflexivity.
  - simpl. tauto.
  - exists "attr"%string, ["a"; "a"; "b"; "b"]%string. split; [left; reflexivity|].
    split; [reflexivity|]. vm_compute. repeat constructor.
  - simpl. discriminate.
Defined.



(** ** The overall score *)

(** With at least one metric configured, the overall score of every report
    lies in [0, 1]. *)
Theorem overall_score_in_unit_interval det predictions true_labels df probs now r :
  metrics det <> [] ->
  fst (detect_bias det predictions true_labels df probs now) = Ok r ->
  0 <= overall_bias_score r <= 1.
Proof.
  intros Hne Hr. destruct (detect_bias_ok _ _ _ _ _ _ _ Hr) as [u [scores [Hv [Hs ->]]]].
  apply validate_ok in Hv as [_ [_ [_ [Hp Hl]]]].
  apply all_binary_unit in Hp. apply all_binary_unit in Hl.
  destruct (metric_loop_prop det predictions true_labels Hp Hl df probs (metrics det) ([], []) scores
              (Forall_nil _) (Forall_nil _) Hs) as [Hm _].
  pose proof (metric_loop_nonempty _ _ _ _ _ _ Hne Hs) as Hne'.
  simpl. apply np_mean_bounds.
  - destruct (fst scores); [congruence|discriminate].
  - unfold values_prop in Hm. apply Forall_map. exact Hm.
Qed.

Lemma overall_score_in_unit_interval_witness :
  exists r,
    fst (detect_bias (scen_detector default_threshold None) scen_predictions scen_true_labels
           scen_df None "2026-10-15T00:00:00") = Ok r /\
    0 <= overall_bias_score r <= 1.
Proof.
  eexists. split; [reflexivity|].
  apply (overall_score_in_unit_interval (scen_detector default_threshold None) scen_predictions
           scen_true_labels scen_df None "2026-10-15T00:00:00"); [vm_compute; discriminate|reflexivity].
Defined.

(** ** Counterfactual fairness and the recommendations *)

Lemma no_metric_recommendation_flat_map (f : string -> option string) thr (d : dict Q) :
  (forall k, In k (map fst d) -> f k = None) ->
  flat_map (fun metric => match f metric with Some r => [r] | None => [] end)
    (map fst (filter (fun kv => Qltb thr (snd kv)) d)) = [].
Proof.
  induction d as [|[k v] d IH]; simpl; intro H; [reflexivity|].
  destruct (Qltb thr v); simpl; [rewrite (H k (or_introl eq_refl))|]; apply IH; auto.
Qed.

(** [_generate_recommendations] has no branch for counterfactual fairness:
    a detector whose only metric is counterfactual fairness reports the
    "no significant bias" notice or exactly the five general suggestions,
    never a metric-specific recommendation. *)
Theorem counterfactual_only_general_recommendations det predictions true_labels df probs now r :
  (forall m, In m (metrics det) -> m = COUNTERFACTUAL_FAIRNESS) ->
  fst (detect_bias det predictions true_labels df probs now) = Ok r ->
  recommendations r = [no_bias_notice] \/ recommendations r = general_recommendations.
Proof.
  intros Hcf Hr. destruct (detect_bias_ok _ _ _ _ _ _ _ Hr) as [u [scores [_ [Hs ->]]]].
  destruct (metric_loop_keys _ _ _ _ _ _ Hs) as [_ Hk].
  simpl. unfold generate_recommendations.
  destruct (Qltb (threshold det) (np_mean (map snd (fst scores)))); simpl; [right|left; reflexivity].
  rewrite no_metric_recommendation_flat_map; [reflexivity|].
  intros k Hin. apply Hk in Hin as [m [Hm ->]]. rewrite (Hcf m Hm). reflexivity.
Qed.

Lemma counterfactual_only_general_recommendations_witness :
  exists r,
    fst (detect_bias (scen_detector default_threshold (Some [COUNTERFACTUAL_FAIRNESS]))
           scen_predictions scen_true_labels scen_df None "2026-10-15T00:00:00") = Ok r /\
    bias_detected r = true /\
    (recommendations r = [no_bias_notice] \/ recommendations r = general_recommendations).
Proof.
  eexists. split; [reflexivity|]. split; [reflexivity|].
  apply (counterfactual_only_general_recommendations
           (scen_detector default_threshold (Some [COUNTERFACTUAL_FAIRNESS]))
           scen_predictions scen_true_labels scen_df None "2026-10-15T00:00:00").
  - intros m [<-|[]]. reflexivity.
  - reflexivity.
Defined.
